(** * Waitlist submission pipeline (api/waitlist.js and the express server)

    A shallow embedding of the submission handler of the waitlist backend:
    the e-mail syntax check, the in-memory rate limiter and the handler that
    validates a request body, forwards it to the page-creation endpoint and
    maps every outcome to a [{ success, message }] response.

    The serverless function [api/waitlist.js] and the route
    [app.post('/api/waitlist', ...)] of the express server carry the same
    [try]/[catch] block, which is what [handler] embeds.  The CORS headers
    and the dispatch on the request method that precede it in the
    serverless function belong to the transport, and the console logging
    of the express version is not part of the response; neither is
    modelled.

    Numbers are integers of [Z]: the counts of the rate limiter stay below
    four and the clock readings are integral milliseconds, so the
    arithmetic of the source is exact on them. *)

From Stdlib Require Import ZArith List Bool Ascii String Lia.
From stdpp Require Import base option gmap list.

Set Default Proof Using "Type".
Open Scope Z_scope.

(** ** JavaScript strings

    A JavaScript string is a sequence of UTF-16 code units.  The regular
    expression of [validateEmail] has no [u] flag, so it works on code
    units. *)

Abbreviation jsstring := (list Z).

(** Code units of an ASCII literal of the source. *)
Definition js (s : string) : jsstring :=
  map (fun a => Z.of_N (N_of_ascii a)) (list_ascii_of_string s).

Definition AT : Z := 64.   (* '@' *)
Definition DOT : Z := 46.  (* '.' *)

(** The class [\s]: WhiteSpace and LineTerminator code points of ECMAScript
    (TAB, LF, VT, FF, CR, SP, NBSP, U+1680, U+2000..U+200A, LS, PS, U+202F,
    U+205F, U+3000, BOM). *)
Definition is_whitespace (c : Z) : bool :=
  (c =? 9) || (c =? 10) || (c =? 11) || (c =? 12) || (c =? 13) || (c =? 32)
  || (c =? 160) || (c =? 5760) || ((8192 <=? c) && (c <=? 8202))
  || (c =? 8232) || (c =? 8233) || (c =? 8239) || (c =? 8287)
  || (c =? 12288) || (c =? 65279).

(** ** Regular expressions

    The fragment of the regular-expression syntax that [emailRegex] uses,
    with matching by derivatives.  [test] decides whether the pattern,
    anchored by [^] and [$], matches the whole input. *)

Module Regex.

(** Members of a character class. *)
Inductive atom : Type :=
| AChar (c : Z)      (* a literal code unit *)
| ASpace.            (* \s *)

Inductive regex : Type :=
| Void                          (* matches nothing *)
| Eps                           (* matches the empty string *)
| Chr (c : Z)                   (* a literal, as [@] and [\.] *)
| NotOf (cls : list atom)       (* [^...] *)
| Alt (r1 r2 : regex)
| Cat (r1 r2 : regex)
| Star (r : regex).

(** [r+] *)
Definition Plus (r : regex) : regex := Cat r (Star r).

Definition atom_matches (a : atom) (c : Z) : bool :=
  match a with
  | AChar d => c =? d
  | ASpace => is_whitespace c
  end.

Definition in_class (cls : list atom) (c : Z) : bool :=
  existsb (fun a => atom_matches a c) cls.

Fixpoint nullable (r : regex) : bool :=
  match r with
  | Void => false
  | Eps => true
  | Chr _ => false
  | NotOf _ => false
  | Alt r1 r2 => nullable r1 || nullable r2
  | Cat r1 r2 => nullable r1 && nullable r2
  | Star _ => true
  end.

Fixpoint deriv (c : Z) (r : regex) : regex :=
  match r with
  | Void => Void
  | Eps => Void
  | Chr d => if c =? d then Eps else Void
  | NotOf cls => if in_class cls c then Void else Eps
  | Alt r1 r2 => Alt (deriv c r1) (deriv c r2)
  | Cat r1 r2 =>
      if nullable r1
      then Alt (Cat (deriv c r1) r2) (deriv c r2)
      else Cat (deriv c r1) r2
  | Star r1 => Cat (deriv c r1) (Star r1)
  end.

Fixpoint test (r : regex) (s : jsstring) : bool :=
  match s with
  | [] => nullable r
  | c :: s' => test (deriv c r) s'
  end.

(** The language of a pattern. *)
Inductive matches : regex -> jsstring -> Prop :=
| MEps : matches Eps []
| MChr c : matches (Chr c) [c]
| MNotOf cls c : in_class cls c = false -> matches (NotOf cls) [c]
| MAltL r1 r2 s : matches r1 s -> matches (Alt r1 r2) s
| MAltR r1 r2 s : matches r2 s -> matches (Alt r1 r2) s
| MCat r1 r2 s1 s2 :
    matches r1 s1 -> matches r2 s2 -> matches (Cat r1 r2) (s1 ++ s2)
| MStar0 r : matches (Star r) []
| MStarS r s1 s2 :
    matches r s1 -> matches (Star r) s2 -> matches (Star r) (s1 ++ s2).

End Regex.

Import Regex.

(** ** validateEmail *)

(** [/^[^\s@]+@[^\s@]+\.[^\s@]+$/] *)
Definition emailRegex : regex :=
  Cat (Plus (NotOf [ASpace; AChar AT]))
      (Cat (Chr AT)
           (Cat (Plus (NotOf [ASpace; AChar AT]))
                (Cat (Chr DOT)
                     (Plus (NotOf [ASpace; AChar AT]))))).

Definition validateEmail (email : jsstring) : bool :=
  Regex.test emailRegex email.

(** A non-empty string without white space and without [@]. *)
Definition email_part (s : jsstring) : Prop :=
  s <> [] /\ forall c, c ∈ s -> is_whitespace c = false /\ c <> AT.

(** ** The rate limiter

    [submissionTracker] is a [Map] from the e-mail to an object
    [{ count, firstSubmission }]; [emailData.count++] updates the object
    that the map holds under the key.  The reading of [Date.now()] is the
    argument [now]; the function returns its result with the map after the
    call. *)

Record EmailData : Type := {
  count : Z;
  firstSubmission : Z
}.

Abbreviation Tracker := (gmap (list Z) EmailData).

Definition RATE_LIMIT_WINDOW : Z := 15 * 60 * 1000.
Definition MAX_SUBMISSIONS_PER_EMAIL : Z := 3.

Definition isRateLimited (submissionTracker : Tracker) (now : Z)
    (email : jsstring) : bool * Tracker :=
  match submissionTracker !! email with
  | None =>
      (false,
       <[email := {| count := 1; firstSubmission := now |}]> submissionTracker)
  | Some emailData =>
      if RATE_LIMIT_WINDOW <? now - firstSubmission emailData then
        (false,
         <[email := {| count := 1; firstSubmission := now |}]> submissionTracker)
      else if MAX_SUBMISSIONS_PER_EMAIL <=? count emailData then
        (true, submissionTracker)
      else
        (false,
         <[email := {| count := count emailData + 1;
                       firstSubmission := firstSubmission emailData |}]>
           submissionTracker)
  end.

(** The maps that calls of [isRateLimited] can build from the empty map,
    with any keys and any clock readings. *)
Inductive reachable : Tracker -> Prop :=
| reachable_empty : reachable ∅
| reachable_call t now email :
    reachable t -> reachable (isRateLimited t now email).2.

(** A run of calls for one e-mail at the given clock readings: the results
    in order, and the map at the end. *)
Fixpoint calls (t : Tracker) (email : jsstring) (nows : list Z)
    : list bool * Tracker :=
  match nows with
  | [] => ([], t)
  | now :: rest =>
      let '(limited, t1) := isRateLimited t now email in
      let '(results, t2) := calls t1 email rest in
      (limited :: results, t2)
  end.

(** ** Values, environment, requests and responses *)

(** The values that the fields of the JSON body [{ email, role }] and the
    variables of [process.env] take: a string, or nothing ([undefined] for a
    key that is not there, [null] for a JSON null). *)
Inductive jsval : Type :=
| JUndefined
| JNull
| JString (s : jsstring).

Global Instance jsval_eq_dec : EqDecision jsval.
Proof. solve_decision. Defined.

(** [!v] is [negb (truthy v)]. *)
Definition truthy (v : jsval) : bool :=
  match v with
  | JString (_ :: _) => true
  | _ => false
  end.

(** The conversion that [RegExp.prototype.test] and template literals apply
    to their argument. *)
Definition ToString (v : jsval) : jsstring :=
  match v with
  | JUndefined => js "undefined"
  | JNull => js "null"
  | JString s => s
  end.

(** [validRoles.includes(role)] *)
Definition includes (l : list jsval) (v : jsval) : bool :=
  bool_decide (v ∈ l).

(** [s.split(sep)[0]]: the input up to the first separator. *)
Fixpoint split_head (sep : Z) (s : jsstring) : jsstring :=
  match s with
  | [] => []
  | c :: s' => if c =? sep then [] else c :: split_head sep s'
  end.

(** [req.body]; [None] when the request carries no body. *)
Record Body : Type := {
  body_email : jsval;
  body_role : jsval
}.

Record ProcessEnv : Type := {
  NOTION_TOKEN : jsval;
  NOTION_DATABASE_ID : jsval
}.

(** What [res.status(...).json({ success, message })] sends. *)
Record Response : Type := {
  status : Z;
  success : bool;
  message : string
}.

(** The object [notionPayload]; each field is named by its path. *)
Record NotionPayload : Type := {
  parent_database_id : jsval;
  Name_title_text_content : jsval;
  Email_email : jsval;
  Role_select_name : jsval;
  SubmitAt_date_start : jsstring
}.

(** The arguments of [axios.post]. *)
Record AxiosRequest : Type := {
  url : string;
  payload : NotionPayload;
  Authorization : jsstring;
  Content_Type : string;
  Notion_Version : string;
  timeout : Z
}.

(** [error.response] of a rejected call: the status and the body that the
    service sent. *)
Record ErrorResponse : Type := {
  response_status : Z;
  response_data : jsstring
}.

(** What the [catch] clause reads of the value thrown: [error.response] and
    [error.code]; [error_message] is the text that only the log shows. *)
Record JsError : Type := {
  error_response : option ErrorResponse;
  error_code : jsval;
  error_message : jsstring
}.

(** The error of a call to a method of a value that has none, or of
    destructuring [undefined]. *)
Definition TypeError (msg : jsstring) : JsError :=
  {| error_response := None; error_code := JUndefined; error_message := msg |}.

Inductive AxiosResult : Type :=
| Resolved (status : Z)
| Rejected (error : JsError).

(** The effects of a run, in order. *)
Inductive Event : Type :=
| ERateLimiter (key : jsstring)
| EPost (request : AxiosRequest).

(** How the [try] block ends. *)
Inductive Completion : Type :=
| Return (r : Response)
| Throw (e : JsError).

(** What a run reads from outside: the clock at [Date.now()] and at
    [new Date()], the environment and the answer of the remote service. *)
Record World : Type := {
  Date_now : Z;
  new_Date : Z;
  process_env : ProcessEnv;
  axios_post : AxiosRequest -> AxiosResult
}.

Record Run : Type := {
  run_response : Response;
  run_tracker : Tracker;
  run_events : list Event
}.

Definition json (st : Z) (ok : bool) (msg : string) : Response :=
  {| status := st; success := ok; message := msg |}.

Definition validRoles : list jsval :=
  [ JString (js "Student / Learner");
    JString (js "Tutor / Teacher");
    JString (js "School / Institute");
    JString (js "Developer / Researcher") ].

(** The [catch (error)] clause. *)
Definition catch_block (error : JsError) : Response :=
  match error_response error with
  | Some response =>
      let status := response_status response in
      if status =? 400 then
        json 400 false "Invalid request format. Please try again."
      else if status =? 401 then
        json 500 false "Server authentication error. Please contact support."
      else if status =? 404 then
        json 500 false "Database configuration error. Please contact support."
      else if status =? 429 then
        json 429 false "Server is busy. Please try again in a moment."
      else
        json 500 false "Something went wrong. Please try again."
  | None =>
      if bool_decide (error_code error = JString (js "ECONNABORTED")) then
        json 408 false "Request timeout. Please try again."
      else
        json 500 false
          "Network error. Please check your connection and try again."
  end.

Section Handler.

(** The library functions of the runtime that the handler calls:
    [String.prototype.toLowerCase] and [Date.prototype.toISOString] (on the
    time value of the date). *)
Variable toLowerCase : jsstring -> jsstring.
Variable toISOString : Z -> jsstring.

(** [v.toLowerCase()]; only a string has the method. *)
Definition call_toLowerCase (v : jsval) : JsError + jsstring :=
  match v with
  | JString s => inr (toLowerCase s)
  | _ => inl (TypeError (js "Cannot read properties of undefined"))
  end.

(** The object [notionPayload] and the arguments of [axios.post], as the
    handler builds them from [email], [role], the environment and the
    clock. *)
Definition notionPayload (w : World) (email role : jsval) : NotionPayload :=
  {| parent_database_id := NOTION_DATABASE_ID (process_env w);
     Name_title_text_content := email;
     Email_email := email;
     Role_select_name := role;
     SubmitAt_date_start := split_head 84 (toISOString (new_Date w)) |}.

Definition post_request (w : World) (email role : jsval) : AxiosRequest :=
  {| url := "https://api.notion.com/v1/pages";
     payload := notionPayload w email role;
     Authorization := js "Bearer " ++ ToString (NOTION_TOKEN (process_env w));
     Content_Type := "application/json";
     Notion_Version := "2022-06-28";
     timeout := 10000 |}.

(** The [try] block, with the map after it and the effects on the way. *)
Definition try_block (w : World) (t : Tracker) (body : option Body)
    : Completion * Tracker * list Event :=
  match body with
  | None =>
      (Throw (TypeError (js "Cannot destructure property")), t, [])
  | Some b =>
      let email := body_email b in
      let role := body_role b in
      if negb (truthy email) || negb (truthy role) then
        (Return (json 400 false "Email and role are required"), t, [])
      else if negb (validateEmail (ToString email)) then
        (Return (json 400 false "Please enter a valid email address"), t, [])
      else
        match call_toLowerCase email with
        | inl e => (Throw e, t, [])
        | inr key =>
            let '(limited, t1) := isRateLimited t (Date_now w) key in
            if limited then
              (Return (json 429 false
                         "Too many submissions. Please try again later."),
               t1, [ERateLimiter key])
            else if negb (includes validRoles role) then
              (Return (json 400 false "Invalid role selected"),
               t1, [ERateLimiter key])
            else if negb (truthy (NOTION_TOKEN (process_env w)))
                    || negb (truthy (NOTION_DATABASE_ID (process_env w))) then
              (Return (json 500 false
                         "Server configuration error. Please contact support."),
               t1, [ERateLimiter key])
            else
              let request := post_request w email role in
              match axios_post w request with
              | Rejected e =>
                  (Throw e, t1, [ERateLimiter key; EPost request])
              | Resolved _ =>
                  (Return (json 200 true
                     "Successfully added to waitlist! We'll be in touch soon."),
                   t1, [ERateLimiter key; EPost request])
              end
        end
  end.

(** The handler: the [try] block, and the [catch] clause on what it
    throws. *)
Definition handler (w : World) (t : Tracker) (body : option Body) : Run :=
  let '(c, t1, evs) := try_block w t body in
  {| run_response :=
       match c with
       | Return r => r
       | Throw e => catch_block e
       end;
     run_tracker := t1;
     run_events := evs |}.

End Handler.

(** ** The handler's contract, in the words of the specification

    The reasons of a rejection, the five validations in their order and the
    outcomes of the remote call, written from the specification; the
    theorems below compare the handler with them. *)

Inductive Reason : Type :=
| MissingFields
| InvalidEmail
| RateLimited
| InvalidRole
| ServerMisconfigured.

Definition rejection (r : Reason) : Response :=
  match r with
  | MissingFields => json 400 false "Email and role are required"
  | InvalidEmail => json 400 false "Please enter a valid email address"
  | RateLimited => json 429 false "Too many submissions. Please try again later."
  | InvalidRole => json 400 false "Invalid role selected"
  | ServerMisconfigured =>
      json 500 false "Server configuration error. Please contact support."
  end.

(** A field or variable is present and non-empty. *)
Definition present (v : jsval) : bool :=
  match v with
  | JString s => negb (bool_decide (s = []))
  | _ => false
  end.

(** The text of a field; empty when the field is not there. *)
Definition text (v : jsval) : jsstring :=
  match v with
  | JString s => s
  | _ => []
  end.

Definition is_role (v : jsval) : Prop :=
  v = JString (js "Student / Learner") \/
  v = JString (js "Tutor / Teacher") \/
  v = JString (js "School / Institute") \/
  v = JString (js "Developer / Researcher").

Global Instance is_role_dec v : Decision (is_role v).
Proof. unfold is_role. apply _. Defined.

Section Contract.

Variable toLowerCase : jsstring -> jsstring.

(** The identity under which a body is rate limited. *)
Definition identity (b : Body) : jsstring :=
  toLowerCase (text (body_email b)).

(** The validations in their order, each with the reason of its failure and
    whether the request passes it. *)
Definition validations (w : World) (t : Tracker) (b : Body)
    : list (Reason * bool) :=
  [ (MissingFields, present (body_email b) && present (body_role b));
    (InvalidEmail, validateEmail (text (body_email b)));
    (RateLimited, negb (isRateLimited t (Date_now w) (identity b)).1);
    (InvalidRole, bool_decide (is_role (body_role b)));
    (ServerMisconfigured,
      present (NOTION_TOKEN (process_env w))
      && present (NOTION_DATABASE_ID (process_env w))) ].

End Contract.

(** The reason of the first validation that fails, if one does. *)
Fixpoint first_failure (vs : list (Reason * bool)) : option Reason :=
  match vs with
  | [] => None
  | (r, ok) :: rest => if ok then first_failure rest else Some r
  end.

(** The outcomes of the remote call and their statuses. *)
Inductive Outcome : Type :=
| Accepted
| UpstreamRejectedFormat
| UpstreamAuthError
| UpstreamTargetMissing
| UpstreamBusy
| UpstreamUnknownError
| UpstreamTimeout
| NetworkError.

Definition outcome_status (o : Outcome) : Z :=
  match o with
  | Accepted => 200
  | UpstreamRejectedFormat => 400
  | UpstreamAuthError => 500
  | UpstreamTargetMissing => 500
  | UpstreamBusy => 429
  | UpstreamUnknownError => 500
  | UpstreamTimeout => 408
  | NetworkError => 500
  end.

(** A call that timed out is rejected by axios with the code
    [ECONNABORTED] and without a response. *)
Definition timed_out (e : JsError) : Prop :=
  error_response e = None /\ error_code e = JString (js "ECONNABORTED").

(** The outcome of a remote call's result. *)
Inductive outcome_of : AxiosResult -> Outcome -> Prop :=
| out_accepted st : outcome_of (Resolved st) Accepted
| out_400 e r :
    error_response e = Some r -> response_status r = 400 ->
    outcome_of (Rejected e) UpstreamRejectedFormat
| out_401 e r :
    error_response e = Some r -> response_status r = 401 ->
    outcome_of (Rejected e) UpstreamAuthError
| out_404 e r :
    error_response e = Some r -> response_status r = 404 ->
    outcome_of (Rejected e) UpstreamTargetMissing
| out_429 e r :
    error_response e = Some r -> response_status r = 429 ->
    outcome_of (Rejected e) UpstreamBusy
| out_other e r :
    error_response e = Some r ->
    response_status r <> 400 -> response_status r <> 401 ->
    response_status r <> 404 -> response_status r <> 429 ->
    outcome_of (Rejected e) UpstreamUnknownError
| out_timeout e :
    timed_out e -> outcome_of (Rejected e) UpstreamTimeout
| out_network e :
    error_response e = None -> ~ timed_out e ->
    outcome_of (Rejected e) NetworkError.

(** Two results of the remote call of the same kind: both a success, or
    failures with the same status, or both a timeout, or both without a
    response. *)
Definition same_kind (r1 r2 : AxiosResult) : Prop :=
  match r1, r2 with
  | Resolved _, Resolved _ => True
  | Rejected e1, Rejected e2 =>
      match error_response e1, error_response e2 with
      | Some x1, Some x2 => response_status x1 = response_status x2
      | None, None => timed_out e1 <-> timed_out e2
      | _, _ => False
      end
  | _, _ => False
  end.

(** The response to the remote call's result. *)
Definition upstream_response (r : AxiosResult) : Response :=
  match r with
  | Resolved _ =>
      json 200 true "Successfully added to waitlist! We'll be in touch soon."
  | Rejected e => catch_block e
  end.

(** The messages that the handler sends. *)
Definition messages : list string :=
  [ "Email and role are required";
    "Please enter a valid email address";
    "Too many submissions. Please try again later.";
    "Invalid role selected";
    "Server configuration error. Please contact support.";
    "Successfully added to waitlist! We'll be in touch soon.";
    "Invalid request format. Please try again.";
    "Server authentication error. Please contact support.";
    "Database configuration error. Please contact support.";
    "Server is busy. Please try again in a moment.";
    "Something went wrong. Please try again.";
    "Request timeout. Please try again.";
    "Network error. Please check your connection and try again." ]%string.

(** ** A runtime to run the handler on examples

    [lower_ascii] is [toLowerCase] on strings of ASCII code units, and
    [iso_utc] is [toISOString] as ECMAScript defines it: the UTC date and
    time of a time value in milliseconds since the epoch.  The theorems do
    not depend on them; the examples instantiate the handler with them. *)

Definition lower_ascii (s : jsstring) : jsstring :=
  map (fun c => if (65 <=? c) && (c <=? 90) then c + 32 else c) s.

Definition digit (n : Z) : Z := 48 + n mod 10.

Definition digits2 (n : Z) : jsstring := [digit (n / 10); digit n].
Definition digits3 (n : Z) : jsstring := digit (n / 100) :: digits2 n.
Definition digits4 (n : Z) : jsstring := digit (n / 1000) :: digits3 n.
Definition digits6 (n : Z) : jsstring :=
  digit (n / 100000) :: digit (n / 10000) :: digits4 n.

(** Year, month and day of the month of a day number (days since the
    epoch) in the proleptic Gregorian calendar. *)
Definition civil_of_days (days : Z) : Z * Z * Z :=
  let z := days + 719468 in
  let era := z / 146097 in
  let doe := z - era * 146097 in
  let yoe := (doe - doe / 1460 + doe / 36524 - doe / 146096) / 365 in
  let doy := doe - (365 * yoe + yoe / 4 - yoe / 100) in
  let mp := (5 * doy + 2) / 153 in
  let d := doy - (153 * mp + 2) / 5 + 1 in
  let m := if mp <? 10 then mp + 3 else mp - 9 in
  let y := yoe + era * 400 + (if m <=? 2 then 1 else 0) in
  (y, m, d).

Definition iso_year (y : Z) : jsstring :=
  if (0 <=? y) && (y <=? 9999) then digits4 y
  else (if y <? 0 then 45 else 43) :: digits6 (Z.abs y).

Definition iso_utc (t : Z) : jsstring :=
  let '(y, m, d) := civil_of_days (t / 86400000) in
  let ms := t mod 86400000 in
  iso_year y ++ [45] ++ digits2 m ++ [45] ++ digits2 d ++ [84]
  ++ digits2 (ms / 3600000) ++ [58] ++ digits2 (ms / 60000 mod 60) ++ [58]
  ++ digits2 (ms / 1000 mod 60) ++ [46] ++ digits3 (ms mod 1000) ++ [90].

(** A string of [n] decimal digits. *)
Definition is_digits (n : nat) (s : jsstring) : Prop :=
  length s = n /\ Forall (fun c => 48 <= c <= 57) s.

(** A configured environment, a body and a world whose remote service
    answers every call with [answer]. *)
Definition sample_env : ProcessEnv :=
  {| NOTION_TOKEN := JString (js "secret_token");
     NOTION_DATABASE_ID := JString (js "database-id") |}.

Definition sample_body (role : string) : Body :=
  {| body_email := JString (js "Ann@Example.com");
     body_role := JString (js role) |}.

Definition sample_world (answer : AxiosResult) : World :=
  {| Date_now := 1700000000000;
     new_Date := 1700000000000;
     process_env := sample_env;
     axios_post := fun _ => answer |}.

(** A failure of the remote service with a status and a body. *)
Definition upstream_error (st : Z) (data : string) : AxiosResult :=
  Rejected {| error_response :=
                Some {| response_status := st; response_data := js data |};
              error_code := JString (js "ERR_BAD_REQUEST");
              error_message := js "Request failed" |}.

(** ** A run of the server

    The requests of a process in the order of their arrival.  The handler
    reads and writes the map before it awaits the remote call, so the map
    after one request is the map before the next. *)

Section Server.

Variable toLowerCase : jsstring -> jsstring.
Variable toISOString : Z -> jsstring.


End Server.

(** The map after a run of the server. *)
Definition final_tracker (t : Tracker) (runs : list Run) : Tracker :=
  List.last (map run_tracker runs) t.


(** ** Values of any type

    What a parsed JSON document or a property of an object may hold.  A
    number is the bit pattern of its IEEE 754 binary64 value; the
    properties of an object are listed with their keys, the first entry of
    a key being its value. *)

Unset Elimination Schemes.

Inductive jsvalue : Type :=
| VUndefined
| VNull
| VBool (b : bool)
| VNumber (bits : Z)
| VString (s : jsstring)
| VArray (elements : list jsvalue)
| VObject (properties : list (jsstring * jsvalue)).

Set Elimination Schemes.

(** Zero of either sign and every NaN are falsy. *)
Definition number_falsy (bits : Z) : bool :=
  let magnitude := bits mod 2 ^ 63 in
  (magnitude =? 0) || (2047 * 2 ^ 52 <? magnitude).

(** [!!v] *)
Definition value_truthy (v : jsvalue) : bool :=
  match v with
  | VUndefined | VNull => false
  | VBool b => b
  | VNumber bits => negb (number_falsy bits)
  | VString s => match s with [] => false | _ :: _ => true end
  | VArray _ | VObject _ => true
  end.

Definition nullish (v : jsvalue) : bool :=
  match v with
  | VUndefined | VNull => true
  | _ => false
  end.

(** The property names that the source reads. *)
Inductive prop : Type :=
| P_0 | P_title | P_text | P_content | P_id | P_message | P_email | P_role.

Definition prop_name (p : prop) : jsstring :=
  match p with
  | P_0 => js "0"
  | P_title => js "title"
  | P_text => js "text"
  | P_content => js "content"
  | P_id => js "id"
  | P_message => js "message"
  | P_email => js "email"
  | P_role => js "role"
  end.

Fixpoint assoc (k : jsstring) (l : list (jsstring * jsvalue)) : jsvalue :=
  match l with
  | [] => VUndefined
  | (k', v) :: rest => if bool_decide (k = k') then v else assoc k rest
  end.

(** [v[p]] for a value that is neither [undefined] nor [null]: an own
    property of an object, the first element of an array or the first code
    unit of a string; none of the names is a property of a prototype. *)
Definition own_property (v : jsvalue) (p : prop) : jsvalue :=
  match v with
  | VObject properties => assoc (prop_name p) properties
  | VArray elements =>
      match p with
      | P_0 => hd VUndefined elements
      | _ => VUndefined
      end
  | VString s =>
      match p, s with
      | P_0, c :: _ => VString [c]
      | _, _ => VUndefined
      end
  | _ => VUndefined
  end.

(** [v?.p] *)
Definition get_optional (v : jsvalue) (p : prop) : jsvalue :=
  if nullish v then VUndefined else own_property v p.

(** [a || b] *)
Definition value_or (a b : jsvalue) : jsvalue :=
  if value_truthy a then a else b.

(** [a && b] on the variables of the environment. *)
Definition js_and (a b : jsval) : jsval :=
  if truthy a then b else a.

(** An object literal with ASCII keys. *)
Definition object (fields : list (string * jsvalue)) : jsvalue :=
  VObject (map (fun kv => (js kv.1, kv.2)) fields).

(** What a function sends: [res.status(s).end()], or [res.json(body)] with
    the status set before it (200 when none is set). *)
Inductive Reply : Type :=
| Ended (status : Z)
| Json (status : Z) (body : jsvalue).

Definition reply_status (r : Reply) : Z :=
  match r with
  | Ended st => st
  | Json st _ => st
  end.

(** The three headers that every serverless function sets first. *)
Definition cors_headers (methods : string) : list (string * string) :=
  [ ("Access-Control-Allow-Origin", "*");
    ("Access-Control-Allow-Methods", methods);
    ("Access-Control-Allow-Headers", "Content-Type") ]%string.

Definition method_not_allowed : Reply :=
  Json 405 (object [ ("success", VBool false);
                     ("message", VString (js "Method Not Allowed")) ]%string).

(** The body [{ success, message }] of a response of the waitlist
    handler. *)
Definition response_json (r : Response) : Reply :=
  Json (status r)
       (object [ ("success", VBool (success r));
                 ("message", VString (js (message r))) ]%string).

Record Exchange : Type := {
  sent_headers : list (string * string);
  sent_reply : Reply;
  tracker_after : Tracker;
  effects : list Event
}.

Section Functions.

Variable toLowerCase : jsstring -> jsstring.
Variable toISOString : Z -> jsstring.

(** [module.exports] of [api/waitlist.js]. *)
Definition waitlist_function (method : jsstring) (w : World) (t : Tracker)
    (body : option Body) : Exchange :=
  let headers := cors_headers "POST, OPTIONS" in
  if bool_decide (method = js "OPTIONS") then
    {| sent_headers := headers; sent_reply := Ended 200;
       tracker_after := t; effects := [] |}
  else if bool_decide (method <> js "POST") then
    {| sent_headers := headers; sent_reply := method_not_allowed;
       tracker_after := t; effects := [] |}
  else
    let run := handler toLowerCase toISOString w t body in
    {| sent_headers := headers;
       sent_reply := response_json (run_response run);
       tracker_after := run_tracker run;
       effects := run_events run |}.

(** The body of the health check, shared by [api/health.js] and the route
    [/api/health] of the express server. *)
Definition isConfigured (env : ProcessEnv) : bool :=
  truthy (js_and (NOTION_TOKEN env) (NOTION_DATABASE_ID env)).

Definition health_route (env : ProcessEnv) (now : Z) : Reply :=
  Json 200
    (object [ ("status", VString (js "OK"));
              ("message", VString (js "Techdio backend is running"));
              ("timestamp", VString (toISOString now));
              ("configured", VBool (isConfigured env));
              ("version", VString (js "1.0.0")) ]%string).

(** [module.exports] of [api/health.js]. *)
Definition health_function (method : jsstring) (env : ProcessEnv) (now : Z)
    : list (string * string) * Reply :=
  let headers := cors_headers "GET, OPTIONS" in
  if bool_decide (method = js "OPTIONS") then (headers, Ended 200)
  else if bool_decide (method <> js "GET") then (headers, method_not_allowed)
  else (headers, health_route env now).

End Functions.

(** ** The connection test

    [api/test-notion.js] and the route [/api/test-notion] of the express
    server. *)

(** The arguments of [axios.get]. *)
Record GetRequest : Type := {
  get_url : jsstring;
  get_Authorization : jsstring;
  get_Notion_Version : string;
  get_timeout : Z
}.

(** What the [catch] clause of the connection test reads of the value
    thrown: [error.response.data] when the error has a response, and
    [error.message]. *)
Record Thrown : Type := {
  thrown_response_data : option jsvalue;
  thrown_message : jsstring
}.

Inductive GetResult : Type :=
| GetResolved (data : jsvalue)
| GetRejected (error : Thrown).

Section ConnectionTest.

(** The text of the [TypeError] that the runtime throws when a property of
    [undefined] or [null] is read. *)
Variable TypeError_message : jsvalue -> prop -> jsstring.

(** [v.p] *)
Definition read (v : jsvalue) (p : prop) : Thrown + jsvalue :=
  if nullish v then
    inl {| thrown_response_data := None;
           thrown_message := TypeError_message v p |}
  else inr (own_property v p).

Definition get_request (env : ProcessEnv) : GetRequest :=
  {| get_url :=
       js "https://api.notion.com/v1/databases/"
       ++ ToString (NOTION_DATABASE_ID env);
     get_Authorization := js "Bearer " ++ ToString (NOTION_TOKEN env);
     get_Notion_Version := "2022-06-28";
     get_timeout := 5000 |}.

(** The [try] block after the check of the credentials: the call and the
    reading of the answer. *)
Definition test_notion_try (env : ProcessEnv)
    (axios_get : GetRequest -> GetResult) : Thrown + Reply :=
  match axios_get (get_request env) with
  | GetRejected error => inl error
  | GetResolved data =>
      match read data P_title with
      | inl error => inl error
      | inr title =>
          let content :=
            get_optional (get_optional (get_optional title P_0) P_text)
                         P_content in
          match read data P_id with
          | inl error => inl error
          | inr id =>
              inr (Json 200
                     (object
                        [ ("success", VBool true);
                          ("message",
                            VString (js "Notion connection successful"));
                          ("database",
                            object
                              [ ("title",
                                  value_or content (VString (js "Untitled")));
                                ("id", id) ]) ]%string))
          end
      end
  end.

(** The [catch (error)] clause. *)
Definition test_notion_catch (error : Thrown) : Reply :=
  Json 500
    (object
       [ ("success", VBool false);
         ("message", VString (js "Notion connection failed"));
         ("error",
           value_or
             match thrown_response_data error with
             | Some data => get_optional data P_message
             | None => VUndefined
             end
             (VString (thrown_message error))) ]%string).

(** The route: its reply and the calls it makes. *)
Definition test_notion_route (env : ProcessEnv)
    (axios_get : GetRequest -> GetResult) : Reply * list GetRequest :=
  if negb (truthy (NOTION_TOKEN env)) || negb (truthy (NOTION_DATABASE_ID env))
  then
    (Json 500
       (object
          [ ("success", VBool false);
            ("message", VString (js "Notion credentials not configured"))
          ]%string),
     [])
  else
    (match test_notion_try env axios_get with
     | inr reply => reply
     | inl error => test_notion_catch error
     end,
     [get_request env]).

(** [module.exports] of [api/test-notion.js]. *)
Definition test_notion_function (method : jsstring) (env : ProcessEnv)
    (axios_get : GetRequest -> GetResult)
    : list (string * string) * Reply * list GetRequest :=
  let headers := cors_headers "GET, OPTIONS" in
  if bool_decide (method = js "OPTIONS") then (headers, Ended 200, [])
  else if bool_decide (method <> js "GET") then
    (headers, method_not_allowed, [])
  else
    let '(reply, requests) := test_notion_route env axios_get in
    (headers, reply, requests).

End ConnectionTest.

(** ** The submission handler on a body of any type

    [handler] takes the fields of the body as strings.  [handler_any] is
    the same [try]/[catch] block on whatever [req.body] holds, with the
    conversions that the operations of the source apply to values that are
    not strings and the errors that these throw. *)

Section AnyBody.

Variable toLowerCase : jsstring -> jsstring.
Variable toISOString : Z -> jsstring.

(** [Number.prototype.toString] on the bit pattern of a number. *)
Variable Number_toString : Z -> jsstring.

(** An object has an own property of the given name. *)
Definition has_own (k : jsstring) (properties : list (jsstring * jsvalue))
    : bool :=
  existsb (fun kv => bool_decide (kv.1 = k)) properties.

(** The conversion to a string, [None] when it throws.  An array joins the
    strings of its elements with commas, [undefined] and [null] giving the
    empty string.  An object is converted by its [toString]: the one of
    [Object.prototype] gives "[object Object]"; an own property of that
    name, which in a value of this type is never a function, hides it, and
    then neither it nor [valueOf] yields a primitive and the conversion
    throws a [TypeError]. *)
Fixpoint value_ToString (v : jsvalue) : option jsstring :=
  match v with
  | VUndefined => Some (js "undefined")
  | VNull => Some (js "null")
  | VBool true => Some (js "true")
  | VBool false => Some (js "false")
  | VNumber bits => Some (Number_toString bits)
  | VString s => Some s
  | VArray elements =>
      (fix join (l : list jsvalue) : option jsstring :=
         match l with
         | [] => Some []
         | x :: rest =>
             match
               match x with
               | VUndefined | VNull => Some []
               | _ => value_ToString x
               end
             with
             | None => None
             | Some sx =>
                 match rest with
                 | [] => Some sx
                 | _ :: _ =>
                     match join rest with
                     | None => None
                     | Some sr => Some (sx ++ 44 :: sr)
                     end
                 end
             end
         end) elements
  | VObject properties =>
      if has_own (js "toString") properties then None
      else Some (js "[object Object]")
  end.

(** A field that holds a string or nothing, as [handler] takes it. *)
Definition as_jsval (v : jsvalue) : jsval :=
  match v with
  | VString s => JString s
  | VNull => JNull
  | _ => JUndefined
  end.

(** [validRoles.includes(role)]: only a string is the same value as one of
    the four strings. *)
Definition includes_value (l : list jsval) (v : jsvalue) : bool :=
  match v with
  | VString s => includes l (JString s)
  | _ => false
  end.

Definition try_block_any (w : World) (t : Tracker) (body : jsvalue)
    : Completion * Tracker * list Event :=
  if nullish body then
    (Throw (TypeError (js "Cannot destructure property")), t, [])
  else
    let email := own_property body P_email in
    let role := own_property body P_role in
    if negb (value_truthy email) || negb (value_truthy role) then
      (Return (json 400 false "Email and role are required"), t, [])
    else
      (* emailRegex.test(email) converts its argument to a string *)
      match value_ToString email with
      | None =>
          (Throw (TypeError (js "Cannot convert object to primitive value")),
           t, [])
      | Some converted =>
          if negb (validateEmail converted) then
            (Return (json 400 false "Please enter a valid email address"),
             t, [])
          else
            match email with
            | VString s =>
                let key := toLowerCase s in
                let '(limited, t1) := isRateLimited t (Date_now w) key in
                if limited then
                  (Return (json 429 false
                             "Too many submissions. Please try again later."),
                   t1, [ERateLimiter key])
                else if negb (includes_value validRoles role) then
                  (Return (json 400 false "Invalid role selected"),
                   t1, [ERateLimiter key])
                else if negb (truthy (NOTION_TOKEN (process_env w)))
                        || negb (truthy (NOTION_DATABASE_ID (process_env w)))
                then
                  (Return
                     (json 500 false
                        "Server configuration error. Please contact support."),
                   t1, [ERateLimiter key])
                else
                  let request :=
                    post_request toISOString w (as_jsval email)
                                 (as_jsval role) in
                  match axios_post w request with
                  | Rejected e =>
                      (Throw e, t1, [ERateLimiter key; EPost request])
                  | Resolved _ =>
                      (Return
                         (json 200 true
                            "Successfully added to waitlist! We'll be in touch soon."),
                       t1, [ERateLimiter key; EPost request])
                  end
            | _ =>
                (* email.toLowerCase is not a function *)
                (Throw (TypeError (js "email.toLowerCase is not a function")),
                 t, [])
            end
      end.

Definition handler_any (w : World) (t : Tracker) (body : jsvalue) : Run :=
  let '(c, t1, evs) := try_block_any w t body in
  {| run_response :=
       match c with
       | Return r => r
       | Throw e => catch_block e
       end;
     run_tracker := t1;
     run_events := evs |}.

End AnyBody.

(** The body of [handler] as a value. *)
Definition of_jsval (v : jsval) : jsvalue :=
  match v with
  | JUndefined => VUndefined
  | JNull => VNull
  | JString s => VString s
  end.

Definition body_value (body : option Body) : jsvalue :=
  match body with
  | None => VUndefined
  | Some b =>
      object [ ("email", of_jsval (body_email b));
               ("role", of_jsval (body_role b)) ]%string
  end.

(** A field that is a string or holds nothing ([undefined] when the key is
    missing, [null]). *)
Definition string_or_absent (v : jsvalue) : bool :=
  match v with
  | VUndefined | VNull | VString _ => true
  | _ => false
  end.

(** The two fields that the handler reads of a body. *)
Definition fields_of (body : jsvalue) : Body :=
  {| body_email := as_jsval (own_property body P_email);
     body_role := as_jsval (own_property body P_role) |}.

(** A body whose e-mail is an array of one address. *)
Definition array_email_body : jsvalue :=
  object [ ("email", VArray [VString (js "a@b.co")]);
           ("role", VString (js "Student / Learner")) ]%string.


(** The text of the runtime's error for a property read of [undefined] or
    [null], as V8 words it, and a rendering of numbers for the examples,
    none of which holds a number. *)
Definition v8_TypeError_message (v : jsvalue) (p : prop) : jsstring :=
  js "Cannot read properties of "
  ++ match v with VNull => js "null" | _ => js "undefined" end
  ++ js " (reading '" ++ prop_name p ++ js "')".

Definition no_numbers (bits : Z) : jsstring := js "NaN".

(** An answer of the remote service to the connection test, and a body of
    one of its errors. *)
Definition sample_database (title : jsvalue) : jsvalue :=
  object [ ("object", VString (js "database"));
           ("id", VString (js "database-id"));
           ("title", title) ]%string.

Definition sample_title (content : string) : jsvalue :=
  VArray [ object [ ("type", VString (js "text"));
                    ("text", object [ ("content", VString (js content)) ]) ]
         ]%string.

Definition sample_error_body : jsvalue :=
  object [ ("object", VString (js "error"));
           ("status", VNumber 4645762082795421696);
           ("code", VString (js "unauthorized"));
           ("message", VString (js "API token is invalid.")) ]%string.

(** * Properties *)

Example iso_utc_sample :
  iso_utc 1700000000000 = js "2023-11-14T22:13:20.000Z".
Proof. reflexivity. Qed.

Example iso_utc_leap_day :
  iso_utc 1709164800000 = js "2024-02-29T00:00:00.000Z".
Proof. reflexivity. Qed.

Example iso_utc_before_epoch :
  iso_utc (-1) = js "1969-12-31T23:59:59.999Z".
Proof. reflexivity. Qed.

Example validateEmail_ok : validateEmail (js "a@b.com") = true.
Proof. reflexivity. Qed.

Example validateEmail_bad : validateEmail (js "bad-email") = false.
Proof. reflexivity. Qed.

(** ** Matching by derivatives decides the language of a pattern *)

Module RegexFacts.

Local Hint Constructors matches : core.

Lemma matches_nil_nullable r s : matches r s -> s = [] -> nullable r = true.
Proof.
  induction 1 as [| | | | | r1 r2 s1 s2 _ IH1 _ IH2 | |]; intros E; simpl;
    try discriminate; auto.
  - rewrite IHmatches by assumption. reflexivity.
  - rewrite IHmatches by assumption. apply orb_true_r.
  - apply app_eq_nil in E as [E1 E2]. rewrite IH1, IH2 by assumption.
    reflexivity.
Qed.

Lemma nullable_matches_nil r : nullable r = true -> matches r [].
Proof.
  induction r as [| | | | r1 IH1 r2 IH2 | r1 IH1 r2 IH2 |]; simpl; intros E;
    try discriminate; auto.
  - apply orb_true_iff in E as [E | E]; auto.
  - apply andb_true_iff in E as [E1 E2].
    change (@nil Z) with (@nil Z ++ []). auto.
Qed.

Lemma deriv_sound r : forall c s, matches (deriv c r) s -> matches r (c :: s).
Proof.
  induction r as [| | d | cls | r1 IH1 r2 IH2 | r1 IH1 r2 IH2 | r1 IH1];
    simpl; intros c s H.
  - inversion H.
  - inversion H.
  - destruct (Z.eqb_spec c d) as [-> |]; inversion H; subst. constructor.
  - destruct (in_class cls c) eqn:E; inversion H; subst. constructor.
    assumption.
  - inversion H; subst; auto.
  - destruct (nullable r1) eqn:N.
    + inversion H as [| | | ? ? ? H1 | ? ? ? H2 | | |]; subst.
      * inversion H1; subst. change (matches (Cat r1 r2) ((c :: s1) ++ s2)).
        auto.
      * change (matches (Cat r1 r2) ([] ++ c :: s)).
        constructor; auto using nullable_matches_nil.
    + inversion H; subst. change (matches (Cat r1 r2) ((c :: s1) ++ s2)).
      auto.
  - inversion H; subst. change (matches (Star r1) ((c :: s1) ++ s2)). auto.
Qed.

Lemma deriv_complete r s' :
  matches r s' -> forall c u, s' = c :: u -> matches (deriv c r) u.
Proof.
  induction 1 as [| d | cls d Hd | | | r1 r2 s1 s2 H1 IH1 H2 IH2
                  | | r1 s1 s2 H1 IH1 H2 IH2]; intros c u E; simpl;
    try discriminate.
  - injection E as -> <-. rewrite Z.eqb_refl. constructor.
  - injection E as -> <-. rewrite Hd. constructor.
  - auto.
  - auto.
  - destruct s1 as [| c1 s1]; simpl in E.
    + rewrite (matches_nil_nullable _ _ H1 eq_refl). auto.
    + injection E as -> <-.
      destruct (nullable r1); auto.
  - destruct s1 as [| c1 s1]; simpl in E.
    + apply (IH2 c u E).
    + injection E as -> <-. auto.
Qed.

Lemma test_matches r s : test r s = true <-> matches r s.
Proof.
  revert r. induction s as [| c s IH]; intros r; simpl.
  - split; [apply nullable_matches_nil |].
    intros H. apply (matches_nil_nullable _ _ H eq_refl).
  - rewrite IH. split; [apply deriv_sound |].
    intros H. apply (deriv_complete _ _ H c s eq_refl).
Qed.

(** A starred or repeated negated class matches the strings of code units
    outside the class. *)
Lemma matches_star_class cls s :
  matches (Star (NotOf cls)) s <-> Forall (fun c => in_class cls c = false) s.
Proof.
  split.
  - intros H. remember (Star (NotOf cls)) as r eqn:Er.
    induction H as [| | | | | | | r1 s1 s2 H1 _ H2 IH2]; try discriminate.
    + constructor.
    + injection Er as ->. inversion H1; subst. constructor; auto.
  - induction 1 as [| c s Hc _ IH].
    + constructor.
    + change (matches (Star (NotOf cls)) ([c] ++ s)). auto.
Qed.

Lemma matches_plus_class cls s :
  matches (Plus (NotOf cls)) s <->
  s <> [] /\ Forall (fun c => in_class cls c = false) s.
Proof.
  unfold Plus. split.
  - intros H. inversion H as [| | | | | ? ? s1 s2 H1 H2 | |]; subst.
    inversion H1; subst. apply matches_star_class in H2.
    split; [discriminate | constructor; assumption].
  - intros [Hne H]. destruct s as [| c s]; [congruence |].
    inversion H; subst. change (matches (Cat (NotOf cls) (Star (NotOf cls))) ([c] ++ s)).
    constructor; [auto | apply matches_star_class; assumption].
Qed.

End RegexFacts.

(** ** The strings that [validateEmail] accepts *)

Lemma in_class_email c :
  in_class [ASpace; AChar AT] c = false <-> is_whitespace c = false /\ c <> AT.
Proof.
  unfold in_class; simpl. rewrite orb_false_r, orb_false_iff, Z.eqb_neq.
  reflexivity.
Qed.

Lemma matches_email_part s :
  matches (Plus (NotOf [ASpace; AChar AT])) s <-> email_part s.
Proof.
  rewrite RegexFacts.matches_plus_class. unfold email_part.
  rewrite Forall_forall. split; intros [Hne H]; split; auto; intros c Hc.
  - apply in_class_email, H, Hc.
  - apply in_class_email, H, Hc.
Qed.

Lemma validateEmail_shape s :
  validateEmail s = true <->
  exists local domain tld,
    s = local ++ AT :: domain ++ DOT :: tld /\
    email_part local /\ email_part domain /\ email_part tld.
Proof.
  unfold validateEmail. rewrite RegexFacts.test_matches. unfold emailRegex.
  split.
  - intros H.
    inversion H as [| | | | | ? ? l s1 Hl H1 | |]; subst.
    inversion H1 as [| | | | | ? ? a s2 Ha H2 | |]; subst.
    inversion Ha; subst.
    inversion H2 as [| | | | | ? ? d s3 Hd H3 | |]; subst.
    inversion H3 as [| | | | | ? ? p tld Hp Ht | |]; subst.
    inversion Hp; subst.
    exists l, d, tld. rewrite !matches_email_part in *. auto.
  - intros (l & d & tld & -> & Hl & Hd & Ht).
    rewrite <- !matches_email_part in *.
    constructor; [assumption |].
    change (AT :: d ++ DOT :: tld) with ([AT] ++ d ++ [DOT] ++ tld).
    repeat (constructor; try assumption).
Qed.

Lemma split_at_unique (x : Z) (l r a b : jsstring) :
  x ∉ l -> l ++ x :: r = a ++ x :: b -> x ∉ a -> a = l /\ b = r.
Proof.
  revert a. induction l as [| y l IH]; intros [| z a] Hl E Ha; simpl in E.
  - injection E as ->. auto.
  - injection E as -> _. exfalso. apply Ha. left.
  - injection E as -> _. exfalso. apply Hl. left.
  - injection E as -> E.
    destruct (IH a) as [-> ->]; auto.
    + intros H. apply Hl. right. exact H.
    + intros H. apply Ha. right. exact H.
Qed.

Lemma email_part_no_at s : email_part s -> AT ∉ s.
Proof. intros [_ H] Hin. destruct (H AT Hin) as [_ Hne]. congruence. Qed.

(** In an accepted string the only [@] is the one of the pattern. *)
Lemma validateEmail_at_unique a b :
  validateEmail (a ++ AT :: b) = true ->
  exists domain tld,
    b = domain ++ DOT :: tld /\
    email_part a /\ email_part domain /\ email_part tld.
Proof.
  intros H. apply validateEmail_shape in H as (l & d & t & E & Hl & Hd & Ht).
  assert (Hr : AT ∉ d ++ DOT :: t).
  { intros Hin. apply elem_of_app in Hin as [Hin | Hin].
    - exact (email_part_no_at _ Hd Hin).
    - apply elem_of_cons in Hin as [Hin | Hin]; [discriminate |].
      exact (email_part_no_at _ Ht Hin). }
  destruct (decide (AT ∈ a)) as [Hin | Hout].
  - (* the first [@] of [a] would be the one of the pattern *)
    apply list_elem_of_split in Hin as (a1 & a2 & ->).
    exfalso.
    assert (Hfirst : exists p q, a1 ++ AT :: a2 = p ++ AT :: q /\ AT ∉ p).
    { clear. induction a1 as [| c a1 IH]; simpl.
      - exists [], a2. split; [reflexivity | apply not_elem_of_nil].
      - destruct (decide (c = AT)) as [-> | Hc].
        + exists [], (a1 ++ AT :: a2). split; [reflexivity |].
          apply not_elem_of_nil.
        + destruct IH as (p & q & -> & Hp). exists (c :: p), q.
          split; [reflexivity |]. intros H.
          apply elem_of_cons in H as [H | H]; congruence. }
    destruct Hfirst as (p & q & Epq & Hp). rewrite Epq in E.
    rewrite <- app_assoc in E. simpl in E. symmetry in E.
    apply split_at_unique in E as [_ E];
      [| exact (email_part_no_at _ Hl) | exact Hp].
    apply Hr. rewrite <- E. apply elem_of_app. right. left.
  - symmetry in E. apply split_at_unique in E as [-> ->];
      [| exact (email_part_no_at _ Hl) | exact Hout].
    exists d, t. auto.
Qed.

(** A decidable form of [email_part], to check it on a given string. *)
Lemma email_part_check s :
  s <> [] ->
  forallb (fun c => negb (is_whitespace c) && negb (c =? AT)) s = true ->
  email_part s.
Proof.
  intros Hne H. split; [assumption |]. intros c Hc.
  apply list_elem_of_In in Hc.
  rewrite forallb_forall in H. specialize (H c Hc).
  apply andb_true_iff in H as [H1 H2].
  apply negb_true_iff in H1, H2. apply Z.eqb_neq in H2. auto.
Qed.

(** C4. [validateEmail] rejects every string that contains a white-space
    code unit, every string without [@], every string with more than one
    [@], and every string in which no [.] follows the [@]; it accepts every
    string [local@domain.tld] whose three parts are non-empty and free of
    white space and of [@]. *)
Theorem validateEmail_rejects_and_accepts :
  (forall s c, c ∈ s -> is_whitespace c = true -> validateEmail s = false) /\
  (forall s, AT ∉ s -> validateEmail s = false) /\
  (forall a b c, validateEmail (a ++ AT :: b ++ AT :: c) = false) /\
  (forall a b, DOT ∉ b -> validateEmail (a ++ AT :: b) = false) /\
  (forall local domain tld,
      email_part local -> email_part domain -> email_part tld ->
      validateEmail (local ++ AT :: domain ++ DOT :: tld) = true).
Proof.
  repeat split.
  - intros s c Hc Hws. apply not_true_is_false. intros H.
    apply validateEmail_shape in H as (l & d & t & -> & Hl & Hd & Ht).
    assert (Hpart : forall p, email_part p -> c ∈ p -> False).
    { intros p [_ Hp] Hin. destruct (Hp c Hin) as [Hn _]. congruence. }
    apply elem_of_app in Hc as [Hc | Hc]; [exact (Hpart _ Hl Hc) |].
    apply elem_of_cons in Hc as [-> | Hc]; [discriminate |].
    apply elem_of_app in Hc as [Hc | Hc]; [exact (Hpart _ Hd Hc) |].
    apply elem_of_cons in Hc as [-> | Hc]; [discriminate |].
    exact (Hpart _ Ht Hc).
  - intros s Hs. apply not_true_is_false. intros H.
    apply validateEmail_shape in H as (l & d & t & -> & _).
    apply Hs. apply elem_of_app. right. left.
  - intros a b c. apply not_true_is_false. intros H.
    apply validateEmail_at_unique in H as (d & t & E & Ha & Hd & Ht).
    assert (Hin : AT ∈ d ++ DOT :: t).
    { rewrite <- E. apply elem_of_app. right. left. }
    apply elem_of_app in Hin as [Hin | Hin].
    + exact (email_part_no_at _ Hd Hin).
    + apply elem_of_cons in Hin as [Hin | Hin]; [discriminate |].
      exact (email_part_no_at _ Ht Hin).
  - intros a b Hb. apply not_true_is_false. intros H.
    apply validateEmail_at_unique in H as (d & t & -> & _).
    apply Hb. apply elem_of_app. right. left.
  - intros l d t Hl Hd Ht. apply validateEmail_shape. exists l, d, t. auto.
Qed.

Lemma validateEmail_rejects_and_accepts_witness :
  validateEmail (js "a b@c.de") = false /\
  validateEmail (js "ab.cd") = false /\
  validateEmail (js "a@b" ++ AT :: js "c.de") = false /\
  validateEmail (js "a.b" ++ AT :: js "cde") = false /\
  validateEmail (js "ab" ++ AT :: js "c.d" ++ DOT :: js "ef") = true.
Proof.
  destruct validateEmail_rejects_and_accepts as (H1 & H2 & H3 & H4 & H5).
  split; [| split; [| split; [| split]]].
  - apply (H1 (js "a b@c.de") 32); [| reflexivity].
    apply list_elem_of_In. vm_compute. auto.
  - apply H2. apply (bool_decide_unpack _). vm_compute. exact I.
  - apply (H3 (js "a") (js "b") (js "c.de")).
  - apply H4. apply (bool_decide_unpack _). vm_compute. exact I.
  - apply H5; apply email_part_check; (discriminate || reflexivity).
Defined.

(** ** The rate limiter *)

Section RateLimiter.

Implicit Types (t : Tracker) (email : jsstring) (d : EmailData) (now : Z).

Lemma isRateLimited_absent t now email :
  t !! email = None ->
  isRateLimited t now email =
    (false, <[email := {| count := 1; firstSubmission := now |}]> t).
Proof. intros H. unfold isRateLimited. rewrite H. reflexivity. Qed.

Lemma isRateLimited_expired t now email d :
  t !! email = Some d ->
  RATE_LIMIT_WINDOW < now - firstSubmission d ->
  isRateLimited t now email =
    (false, <[email := {| count := 1; firstSubmission := now |}]> t).
Proof.
  intros H Hw. unfold isRateLimited. rewrite H.
  apply Z.ltb_lt in Hw. rewrite Hw. reflexivity.
Qed.

Lemma isRateLimited_blocked t now email d :
  t !! email = Some d ->
  now - firstSubmission d <= RATE_LIMIT_WINDOW ->
  MAX_SUBMISSIONS_PER_EMAIL <= count d ->
  isRateLimited t now email = (true, t).
Proof.
  intros H Hw Hc. unfold isRateLimited. rewrite H.
  destruct (Z.ltb_spec RATE_LIMIT_WINDOW (now - firstSubmission d)); [lia |].
  apply Z.leb_le in Hc. rewrite Hc. reflexivity.
Qed.

Lemma isRateLimited_counted t now email d :
  t !! email = Some d ->
  now - firstSubmission d <= RATE_LIMIT_WINDOW ->
  count d < MAX_SUBMISSIONS_PER_EMAIL ->
  isRateLimited t now email =
    (false, <[email := {| count := count d + 1;
                          firstSubmission := firstSubmission d |}]> t).
Proof.
  intros H Hw Hc. unfold isRateLimited. rewrite H.
  destruct (Z.ltb_spec RATE_LIMIT_WINDOW (now - firstSubmission d)); [lia |].
  destruct (Z.leb_spec MAX_SUBMISSIONS_PER_EMAIL (count d)); [lia |].
  reflexivity.
Qed.

(** A call leaves the entries of the other keys as they are. *)
Lemma isRateLimited_other t now email k :
  k <> email -> (isRateLimited t now email).2 !! k = t !! k.
Proof.
  intros Hk. unfold isRateLimited.
  destruct (t !! email) as [d |]; simpl;
    repeat match goal with |- context [if ?b then _ else _] => destruct b end;
    simpl; rewrite ?lookup_insert_ne by congruence; reflexivity.
Qed.

(** Every count of a reachable map lies between 1 and the maximum. *)
Lemma reachable_count_bounds t :
  reachable t ->
  forall email d,
    t !! email = Some d -> 1 <= count d <= MAX_SUBMISSIONS_PER_EMAIL.
Proof.
  induction 1 as [| t now k Hr IH]; intros email d Hd.
  - rewrite lookup_empty in Hd. discriminate.
  - destruct (decide (email = k)) as [-> | Hne];
      [| rewrite isRateLimited_other in Hd by assumption; eauto].
    unfold isRateLimited in Hd.
    destruct (t !! k) as [d0 |] eqn:E; simpl in Hd.
    + specialize (IH k d0 E).
      destruct (Z.ltb_spec RATE_LIMIT_WINDOW (now - firstSubmission d0));
        [| destruct (Z.leb_spec MAX_SUBMISSIONS_PER_EMAIL (count d0))];
        simpl in Hd; rewrite ?lookup_insert_eq in Hd.
      * injection Hd as <-. simpl. unfold MAX_SUBMISSIONS_PER_EMAIL. lia.
      * rewrite E in Hd. injection Hd as <-. exact IH.
      * injection Hd as <-. simpl. lia.
    + rewrite lookup_insert_eq in Hd. injection Hd as <-. simpl.
      unfold MAX_SUBMISSIONS_PER_EMAIL. lia.
Qed.

End RateLimiter.

(** C1. Within the window a call for a key whose count has reached the
    maximum of 3 returns limited and leaves the map as it is, and in every
    map reachable from the empty one by calls of [isRateLimited] every
    count is at most the maximum. *)
Theorem isRateLimited_count_never_exceeds_max :
  MAX_SUBMISSIONS_PER_EMAIL = 3 /\
  (forall (t : Tracker) now email d,
      t !! email = Some d ->
      now - firstSubmission d <= RATE_LIMIT_WINDOW ->
      MAX_SUBMISSIONS_PER_EMAIL <= count d ->
      isRateLimited t now email = (true, t)) /\
  (forall t : Tracker,
      reachable t ->
      forall email d,
        t !! email = Some d -> count d <= MAX_SUBMISSIONS_PER_EMAIL).
Proof.
  split; [reflexivity | split].
  - intros t now email d. apply isRateLimited_blocked.
  - intros t Hr email d Hd. apply (reachable_count_bounds t Hr email d Hd).
Qed.

Lemma isRateLimited_count_never_exceeds_max_witness :
  isRateLimited {[ js "a@b.co" := {| count := 3; firstSubmission := 1000 |} ]}
                900000 (js "a@b.co")
  = (true, {[ js "a@b.co" := {| count := 3; firstSubmission := 1000 |} ]})
  /\ count {| count := 1; firstSubmission := 7 |} <= MAX_SUBMISSIONS_PER_EMAIL.
Proof.
  destruct isRateLimited_count_never_exceeds_max as (_ & H1 & H2).
  split.
  - apply (H1 _ _ _ {| count := 3; firstSubmission := 1000 |}).
    + apply lookup_singleton_eq.
    + vm_compute. discriminate.
    + vm_compute. discriminate.
  - apply (H2 (isRateLimited ∅ 7 (js "a@b.co")).2
              (reachable_call ∅ 7 (js "a@b.co") reachable_empty)
              (js "a@b.co")).
    rewrite isRateLimited_absent by apply lookup_empty.
    apply lookup_insert_eq.
Defined.

(** C2. For a key without an entry and clock readings within one window,
    the first three calls return not limited and the fourth returns
    limited; a further call more than [RATE_LIMIT_WINDOW] (15 minutes)
    after the start of the window returns not limited and resets the entry
    to a count of 1 and a window that starts at that call. *)
Theorem isRateLimited_three_then_blocked_then_reset
    (t : Tracker) (email : jsstring) (n1 n2 n3 n4 n5 : Z) :
  t !! email = None ->
  n2 - n1 <= RATE_LIMIT_WINDOW ->
  n3 - n1 <= RATE_LIMIT_WINDOW ->
  n4 - n1 <= RATE_LIMIT_WINDOW ->
  RATE_LIMIT_WINDOW < n5 - n1 ->
  RATE_LIMIT_WINDOW = 15 * 60 * 1000 /\
  (calls t email [n1; n2; n3; n4; n5]).1 = [false; false; false; true; false] /\
  (calls t email [n1; n2; n3; n4]).2 !! email
    = Some {| count := 3; firstSubmission := n1 |} /\
  (calls t email [n1; n2; n3; n4; n5]).2 !! email
    = Some {| count := 1; firstSubmission := n5 |}.
Proof.
  intros H0 H2 H3 H4 H5. split; [reflexivity |].
  set (e1 := {| count := 1; firstSubmission := n1 |}).
  set (e2 := {| count := 2; firstSubmission := n1 |}).
  set (e3 := {| count := 3; firstSubmission := n1 |}).
  set (t1 := <[email := e1]> t).
  set (t2 := <[email := e2]> t1).
  set (t3 := <[email := e3]> t2).
  assert (E1 : isRateLimited t n1 email = (false, t1))
    by (apply isRateLimited_absent; assumption).
  assert (E2 : isRateLimited t1 n2 email = (false, t2)).
  { apply (isRateLimited_counted t1 n2 email e1);
      [apply lookup_insert_eq | assumption | reflexivity]. }
  assert (E3 : isRateLimited t2 n3 email = (false, t3)).
  { apply (isRateLimited_counted t2 n3 email e2);
      [apply lookup_insert_eq | assumption | reflexivity]. }
  assert (E4 : isRateLimited t3 n4 email = (true, t3)).
  { apply (isRateLimited_blocked t3 n4 email e3);
      [apply lookup_insert_eq | assumption | reflexivity]. }
  assert (E5 : isRateLimited t3 n5 email
               = (false, <[email := {| count := 1; firstSubmission := n5 |}]> t3)).
  { apply (isRateLimited_expired t3 n5 email e3);
      [apply lookup_insert_eq | assumption]. }
  simpl. rewrite E1, E2, E3, E4, E5. simpl.
  split; [reflexivity |]. split; apply lookup_insert_eq.
Qed.

Lemma isRateLimited_three_then_blocked_then_reset_witness :
  (calls ∅ (js "a@b.co") [1000; 2000; 3000; 901000; 901001]).1
    = [false; false; false; true; false] /\
  (calls ∅ (js "a@b.co") [1000; 2000; 3000; 901000; 901001]).2 !! js "a@b.co"
    = Some {| count := 1; firstSubmission := 901001 |}.
Proof.
  destruct (isRateLimited_three_then_blocked_then_reset
              ∅ (js "a@b.co") 1000 2000 3000 901000 901001)
    as (_ & H1 & _ & H2).
  - apply lookup_empty.
  - vm_compute. discriminate.
  - vm_compute. discriminate.
  - vm_compute. discriminate.
  - vm_compute. reflexivity.
  - split; assumption.
Defined.

(** ** The handler *)

Lemma truthy_present v : truthy v = present v.
Proof. destruct v as [| | [| c s]]; reflexivity. Qed.

Lemma present_text v : present v = true -> v = JString (text v).
Proof. destruct v; simpl; intros H; (discriminate || reflexivity). Qed.

Lemma includes_validRoles v : includes validRoles v = bool_decide (is_role v).
Proof.
  unfold includes, validRoles, is_role. apply bool_decide_ext.
  rewrite !elem_of_cons, elem_of_nil. tauto.
Qed.

Lemma split_head_app sep p rest :
  sep ∉ p -> split_head sep (p ++ sep :: rest) = p.
Proof.
  induction p as [| c p IH]; simpl; intros H.
  - rewrite Z.eqb_refl. reflexivity.
  - destruct (Z.eqb_spec c sep) as [-> | _].
    + exfalso. apply H. left.
    + rewrite IH; [reflexivity |]. intros Hin. apply H. right. exact Hin.
Qed.

Lemma outcome_of_total r : exists o, outcome_of r o.
Proof.
  destruct r as [st | e]; [eexists; constructor |].
  destruct (error_response e) as [x |] eqn:E.
  - destruct (decide (response_status x = 400));
      [eexists; eapply out_400; eassumption |].
    destruct (decide (response_status x = 401));
      [eexists; eapply out_401; eassumption |].
    destruct (decide (response_status x = 404));
      [eexists; eapply out_404; eassumption |].
    destruct (decide (response_status x = 429));
      [eexists; eapply out_429; eassumption |].
    eexists; eapply out_other; eassumption.
  - destruct (decide (error_code e = JString (js "ECONNABORTED"))) as [C | C].
    + eexists. apply out_timeout. split; assumption.
    + eexists. apply out_network; [assumption |]. intros [_ H]. auto.
Qed.

(** The response of the [catch] clause, by the outcome of the error. *)
Lemma catch_block_outcome e o :
  outcome_of (Rejected e) o ->
  status (catch_block e) = outcome_status o /\
  success (catch_block e) = false /\ o <> Accepted.
Proof.
  unfold catch_block.
  inversion 1 as [| ? r E S | ? r E S | ? r E S | ? r E S
                  | ? r E S1 S2 S3 S4 | ? [E C] | ? E C]; subst.
  - rewrite E, S. simpl. auto.
  - rewrite E, S. simpl. auto.
  - rewrite E, S. simpl. auto.
  - rewrite E, S. simpl. auto.
  - rewrite E.
    destruct (Z.eqb_spec (response_status r) 400); [lia |].
    destruct (Z.eqb_spec (response_status r) 401); [lia |].
    destruct (Z.eqb_spec (response_status r) 404); [lia |].
    destruct (Z.eqb_spec (response_status r) 429); [lia |].
    simpl. auto.
  - rewrite E, C. simpl. auto.
  - rewrite E. rewrite bool_decide_eq_false_2; [simpl; auto |].
    intros Hc. apply C. split; assumption.
Qed.

Lemma catch_block_message e : message (catch_block e) ∈ messages.
Proof.
  unfold catch_block, messages.
  destruct (error_response e) as [r |];
    repeat match goal with |- context [if ?b then _ else _] => destruct b end;
    simpl; rewrite !elem_of_cons; tauto.
Qed.

Lemma catch_block_same_kind e1 e2 :
  same_kind (Rejected e1) (Rejected e2) -> catch_block e1 = catch_block e2.
Proof.
  unfold same_kind, catch_block, timed_out.
  destruct (error_response e1) as [r1 |], (error_response e2) as [r2 |];
    try contradiction.
  - intros ->. reflexivity.
  - intros H.
    destruct (decide (error_code e1 = JString (js "ECONNABORTED"))) as [C1 | C1],
             (decide (error_code e2 = JString (js "ECONNABORTED"))) as [C2 | C2].
    + rewrite C1, C2. reflexivity.
    + exfalso. apply C2. apply H. auto.
    + exfalso. apply C1. apply H. auto.
    + rewrite !bool_decide_eq_false_2 by assumption. reflexivity.
Qed.

Lemma digit_range n : 48 <= digit n <= 57.
Proof. unfold digit. pose proof (Z.mod_pos_bound n 10). lia. Qed.

(** For a year of four digits the ISO rendering of [iso_utc] starts with
    the date [YYYY-MM-DD], followed by [T] and the time. *)
Lemma iso_utc_date_shape t y m d :
  civil_of_days (t / 86400000) = (y, m, d) ->
  0 <= y <= 9999 ->
  exists rest,
    iso_utc t
      = digits4 y ++ [45] ++ digits2 m ++ [45] ++ digits2 d ++ [84] ++ rest /\
    is_digits 4 (digits4 y) /\ is_digits 2 (digits2 m) /\
    is_digits 2 (digits2 d).
Proof.
  intros E Hy. unfold iso_utc. rewrite E. unfold iso_year.
  destruct (Z.leb_spec 0 y); [| lia].
  destruct (Z.leb_spec y 9999); [| lia]. simpl andb. cbv iota.
  eexists. split.
  - reflexivity.
  - unfold is_digits, digits4, digits3, digits2.
    repeat split; repeat (constructor; try apply digit_range).
Qed.

Arguments validateEmail : simpl never.
Arguments isRateLimited : simpl never.
Arguments js : simpl never.
Arguments catch_block : simpl never.

Section HandlerFacts.

Variable toLowerCase : jsstring -> jsstring.
Variable toISOString : Z -> jsstring.

Local Abbreviation run_handler := (handler toLowerCase toISOString).
Local Abbreviation request_of := (post_request toISOString).
Local Abbreviation checks := (validations toLowerCase).
Local Abbreviation key_of := (identity toLowerCase).

(** A run on a body, by the first validation that fails. *)
Lemma handler_run w t b :
  run_handler w t (Some b) =
    let after := (isRateLimited t (Date_now w) (key_of b)).2 in
    let request := request_of w (body_email b) (body_role b) in
    match first_failure (checks w t b) with
    | Some MissingFields =>
        {| run_response := rejection MissingFields;
           run_tracker := t; run_events := [] |}
    | Some InvalidEmail =>
        {| run_response := rejection InvalidEmail;
           run_tracker := t; run_events := [] |}
    | Some r =>
        {| run_response := rejection r;
           run_tracker := after; run_events := [ERateLimiter (key_of b)] |}
    | None =>
        {| run_response := upstream_response (axios_post w request);
           run_tracker := after;
           run_events := [ERateLimiter (key_of b); EPost request] |}
    end.
Proof.
  destruct b as [email role].
  unfold handler, try_block, validations, identity. simpl.
  rewrite !truthy_present, includes_validRoles.
  destruct email as [| | e]; [reflexivity | reflexivity |].
  destruct (present (JString e)); [| reflexivity].
  destruct (present role); [| reflexivity]. simpl.
  destruct (validateEmail e); [| reflexivity]. simpl.
  destruct (isRateLimited t (Date_now w) (toLowerCase e)) as [limited t1].
  simpl.
  destruct limited; [reflexivity |]. simpl.
  destruct (bool_decide (is_role role)); [| reflexivity]. simpl.
  destruct (present (NOTION_TOKEN (process_env w))); [| reflexivity].
  destruct (present (NOTION_DATABASE_ID (process_env w))); [| reflexivity].
  simpl.
  destruct (axios_post w (request_of w (JString e) role)); reflexivity.
Qed.



(** C5. When the validations pass, the response follows the result of the
    remote call: a success gives [success = true] with status 200; a
    failure with a response of status 400 gives 400, of status 401 or 404
    gives 500, of status 429 gives 429, of any other status gives 500; a
    call that timed out gives 408; a failure without a response gives
    500. *)
Theorem handler_outcome_mapping w t b :
  first_failure (checks w t b) = None ->
  let result := axios_post w (request_of w (body_email b) (body_role b)) in
  let response := run_response (run_handler w t (Some b)) in
  (exists o, outcome_of result o) /\
  (forall o, outcome_of result o ->
     status response = outcome_status o /\
     (success response = true <-> o = Accepted)).
Proof.
  intros Hv result response. subst result response.
  split; [apply outcome_of_total |].
  rewrite handler_run, Hv. simpl. intros o Ho.
  destruct (axios_post w (request_of w (body_email b) (body_role b)))
    as [st | e]; simpl.
  - inversion Ho; subst. simpl. tauto.
  - destruct (catch_block_outcome e o Ho) as (Hs & Hf & Hne).
    rewrite Hs, Hf. split; [reflexivity |]. split; [discriminate | tauto].
Qed.


(** C7. When the validations pass, the request sent to the remote service
    carries a payload whose title and e-mail fields are the submitted
    e-mail and whose select field is the submitted role; its date field is
    the date part [YYYY-MM-DD] of the ISO rendering of the current time,
    without the time; the timeout of the call is 10 seconds. *)
Theorem handler_payload w t b (y m d rest : jsstring) :
  first_failure (checks w t b) = None ->
  toISOString (new_Date w) = y ++ [45] ++ m ++ [45] ++ d ++ [84] ++ rest ->
  is_digits 4 y -> is_digits 2 m -> is_digits 2 d ->
  exists request,
    run_events (run_handler w t (Some b))
      = [ERateLimiter (key_of b); EPost request] /\
    Name_title_text_content (payload request) = body_email b /\
    Email_email (payload request) = body_email b /\
    Role_select_name (payload request) = body_role b /\
    SubmitAt_date_start (payload request) = y ++ [45] ++ m ++ [45] ++ d /\
    timeout request = 10 * 1000.
Proof.
  intros Hv Hiso [_ Hy] [_ Hm] [_ Hd].
  exists (request_of w (body_email b) (body_role b)).
  rewrite handler_run, Hv. simpl.
  repeat (split; [reflexivity |]). split; [| reflexivity].
  rewrite Hiso.
  replace (y ++ [45] ++ m ++ [45] ++ d ++ [84] ++ rest)
    with ((y ++ [45] ++ m ++ [45] ++ d) ++ 84 :: rest)
    by (rewrite <- !app_assoc; reflexivity).
  apply split_head_app.
  assert (Hdig : forall p, Forall (fun c => 48 <= c <= 57) p -> 84 ∉ p).
  { intros p Hp Hin. rewrite Forall_forall in Hp.
    specialize (Hp 84 Hin). lia. }
  intros Hin.
  apply elem_of_app in Hin as [H | Hin]; [exact (Hdig _ Hy H) |].
  simpl in Hin. apply elem_of_cons in Hin as [H | Hin]; [discriminate |].
  apply elem_of_app in Hin as [H | Hin]; [exact (Hdig _ Hm H) |].
  simpl in Hin. apply elem_of_cons in Hin as [H | Hin]; [discriminate |].
  exact (Hdig _ Hd Hin).
Qed.

(** C8. The message of every response is one of thirteen constant strings,
    and the response does not depend on the body of an upstream error: two
    runs that differ only in the answers of the remote service, these being
    of the same kind (both a success, or failures with the same status, or
    both a timeout, or both without a response), end alike. *)
Theorem handler_response_sanitized :
  (forall w t body,
      message (run_response (run_handler w t body)) ∈ messages) /\
  (forall w1 w2 t body,
      Date_now w1 = Date_now w2 ->
      new_Date w1 = new_Date w2 ->
      process_env w1 = process_env w2 ->
      (forall request,
          same_kind (axios_post w1 request) (axios_post w2 request)) ->
      run_handler w1 t body = run_handler w2 t body).
Proof.
  split.
  - intros w t [b |].
    + rewrite handler_run. cbv zeta.
      destruct (first_failure (checks w t b)) as [[] |]; simpl;
        try (unfold messages; rewrite !elem_of_cons; tauto).
      destruct (axios_post w _) as [st | e]; simpl.
      * unfold messages; rewrite !elem_of_cons; tauto.
      * apply catch_block_message.
    + unfold handler. simpl. unfold messages. rewrite !elem_of_cons. tauto.
  - intros [n1 d1 env1 post1] [n2 d2 env2 post2] t [b |]; simpl;
      intros <- <- <- Hk; [| reflexivity].
    rewrite !handler_run. cbv zeta.
    set (W1 := {| Date_now := n1; new_Date := d1; process_env := env1;
                  axios_post := post1 |}).
    set (W2 := {| Date_now := n1; new_Date := d1; process_env := env1;
                  axios_post := post2 |}).
    change (checks W2 t b) with (checks W1 t b).
    destruct (first_failure (checks W1 t b)) as [[] |]; try reflexivity.
    change (request_of W2 (body_email b) (body_role b))
      with (request_of W1 (body_email b) (body_role b)).
    assert (Hup :
      upstream_response
        (axios_post W1 (request_of W1 (body_email b) (body_role b)))
      = upstream_response
          (axios_post W2 (request_of W1 (body_email b) (body_role b)))).
    { specialize (Hk (request_of W1 (body_email b) (body_role b))).
      change (axios_post W1) with post1. change (axios_post W2) with post2.
      destruct (post1 _) as [s1 | e1], (post2 _) as [s2 | e2];
        simpl in Hk |- *; try contradiction; [reflexivity |].
      apply catch_block_same_kind. exact Hk. }
    rewrite Hup. reflexivity.
Qed.

(** C10. Without a body the [try] block throws at the destructuring; the
    error has no response and no timeout code, so the [catch] clause
    answers with status 500 and the network-error message, not with the
    status 400 of missing fields; the rate limiter and the remote service
    are not reached. *)
Theorem handler_absent_body w t :
  let run := run_handler w t None in
  (exists e, try_block toLowerCase toISOString w t None = (Throw e, t, []) /\
             error_response e = None /\
             error_code e <> JString (js "ECONNABORTED")) /\
  run_response run
    = json 500 false
        "Network error. Please check your connection and try again." /\
  run_response run <> rejection MissingFields /\
  status (run_response run) <> 400 /\
  run_tracker run = t /\
  run_events run = [].
Proof.
  intros run. subst run. split.
  - eexists. split; [reflexivity |]. split; [reflexivity | discriminate].
  - repeat split; discriminate.
Qed.

End HandlerFacts.

(** ** The handler on examples *)

Lemma handler_outcome_mapping_witness :
  status (run_response
            (handler lower_ascii iso_utc
               (sample_world (upstream_error 429 "{'code':'rate_limited'}"))
               ∅ (Some (sample_body "Student / Learner")))) = 429.
Proof.
  destruct (handler_outcome_mapping lower_ascii iso_utc
              (sample_world (upstream_error 429 "{'code':'rate_limited'}"))
              ∅ (sample_body "Student / Learner")) as [_ H].
  - vm_compute. reflexivity.
  - destruct (H UpstreamBusy) as [Hs _].
    + eapply out_429; reflexivity.
    + exact Hs.
Defined.


Lemma handler_payload_witness :
  exists request,
    run_events
      (handler lower_ascii iso_utc (sample_world (Resolved 200)) ∅
         (Some (sample_body "Tutor / Teacher")))
      = [ERateLimiter (js "ann@example.com"); EPost request] /\
    SubmitAt_date_start (payload request) = js "2023-11-14" /\
    timeout request = 10000.
Proof.
  destruct (handler_payload lower_ascii iso_utc
              (sample_world (Resolved 200)) ∅ (sample_body "Tutor / Teacher")
              (js "2023") (js "11") (js "14") (js "22:13:20.000Z"))
    as (request & H1 & _ & _ & _ & H2 & H3).
  - vm_compute. reflexivity.
  - vm_compute. reflexivity.
  - split; [reflexivity |]. apply (bool_decide_unpack _). vm_compute. exact I.
  - split; [reflexivity |]. apply (bool_decide_unpack _). vm_compute. exact I.
  - split; [reflexivity |]. apply (bool_decide_unpack _). vm_compute. exact I.
  - exists request. split; [exact H1 |]. split; [exact H2 | exact H3].
Defined.

Lemma handler_response_sanitized_witness :
  handler lower_ascii iso_utc
    (sample_world (upstream_error 500 "{'message':'internal table pages_v2'}"))
    ∅ (Some (sample_body "Tutor / Teacher"))
  = handler lower_ascii iso_utc
      (sample_world (upstream_error 500 "<html>Bad gateway</html>"))
      ∅ (Some (sample_body "Tutor / Teacher")).
Proof.
  apply (proj2 (handler_response_sanitized lower_ascii iso_utc)).
  - reflexivity.
  - reflexivity.
  - reflexivity.
  - intros request. simpl. reflexivity.
Defined.

(** The end-to-end scenarios of the specification. *)

Example scenario_accepted :
  run_response
    (handler lower_ascii iso_utc (sample_world (Resolved 200)) ∅
       (Some {| body_email := JString (js "a@b.com");
                body_role := JString (js "Student / Learner") |}))
  = json 200 true "Successfully added to waitlist! We'll be in touch soon.".
Proof. vm_compute. reflexivity. Qed.

Example scenario_bad_email :
  run_response
    (handler lower_ascii iso_utc (sample_world (Resolved 200)) ∅
       (Some {| body_email := JString (js "bad-email");
                body_role := JString (js "Student / Learner") |}))
  = json 400 false "Please enter a valid email address".
Proof. vm_compute. reflexivity. Qed.

Example scenario_upstream_busy :
  run_response
    (handler lower_ascii iso_utc (sample_world (upstream_error 429 "busy")) ∅
       (Some (sample_body "Student / Learner")))
  = json 429 false "Server is busy. Please try again in a moment.".
Proof. vm_compute. reflexivity. Qed.

Example scenario_timeout :
  run_response
    (handler lower_ascii iso_utc
       (sample_world
          (Rejected {| error_response := None;
                       error_code := JString (js "ECONNABORTED");
                       error_message := js "timeout of 10000ms exceeded" |}))
       ∅ (Some (sample_body "Student / Learner")))
  = json 408 false "Request timeout. Please try again.".
Proof. vm_compute. reflexivity. Qed.

(** The rate limiter keys on the lower-cased e-mail, while the payload
    keeps the e-mail as submitted. *)
Example scenario_identity :
  run_events
    (handler lower_ascii iso_utc (sample_world (Resolved 200)) ∅
       (Some (sample_body "Student / Learner")))
  = [ERateLimiter (js "ann@example.com");
     EPost (post_request iso_utc (sample_world (Resolved 200))
              (JString (js "Ann@Example.com"))
              (JString (js "Student / Learner")))].
Proof. vm_compute. reflexivity. Qed.

(** * Further properties of the code *)

(** ** The rate limiter *)

(** X1. A call is limited exactly when the key has an entry whose window
    has not passed (a call exactly [RATE_LIMIT_WINDOW] after its start is
    still inside it) and whose count has reached the maximum; a limited
    call leaves the map as it is. *)
Theorem isRateLimited_limited_iff (t : Tracker) (now : Z) (email : jsstring) :
  ((isRateLimited t now email).1 = true <->
   exists d, t !! email = Some d /\
             now - firstSubmission d <= RATE_LIMIT_WINDOW /\
             MAX_SUBMISSIONS_PER_EMAIL <= count d) /\
  ((isRateLimited t now email).1 = true -> (isRateLimited t now email).2 = t).
Proof.
  unfold isRateLimited.
  destruct (t !! email) as [d |] eqn:E.
  - destruct (Z.ltb_spec RATE_LIMIT_WINDOW (now - firstSubmission d));
      [| destruct (Z.leb_spec MAX_SUBMISSIONS_PER_EMAIL (count d))]; simpl.
    + split; [| discriminate]. split; [discriminate |].
      intros (d' & Hd & Hw & _). injection Hd as <-. lia.
    + split; [| reflexivity]. split; [| reflexivity].
      intros _. exists d. auto.
    + split; [| discriminate]. split; [discriminate |].
      intros (d' & Hd & _ & Hc). injection Hd as <-. lia.
  - simpl. split; [| discriminate]. split; [discriminate |].
    intros (d' & Hd & _). discriminate.
Qed.

Lemma isRateLimited_limited_iff_witness :
  (isRateLimited {[ js "a@b.co" := {| count := 3; firstSubmission := 0 |} ]}
                 900000 (js "a@b.co")).1 = true.
Proof.
  apply (proj1 (isRateLimited_limited_iff _ _ _)).
  exists {| count := 3; firstSubmission := 0 |}.
  split; [apply lookup_singleton_eq |].
  split; vm_compute; discriminate.
Defined.

(** X2. A call changes the entry of its key only: the entries of all other
    keys stay as they are, the key has an entry afterwards, and no entry is
    ever removed. *)
Theorem isRateLimited_frame (t : Tracker) (now : Z) (email : jsstring) :
  (forall k, k <> email -> (isRateLimited t now email).2 !! k = t !! k) /\
  is_Some ((isRateLimited t now email).2 !! email) /\
  (forall k, is_Some (t !! k) -> is_Some ((isRateLimited t now email).2 !! k)).
Proof.
  assert (Hkey : is_Some ((isRateLimited t now email).2 !! email)).
  { unfold isRateLimited. destruct (t !! email) as [d |] eqn:E; simpl.
    - destruct (_ <? _); [| destruct (_ <=? _)]; simpl;
        rewrite ?lookup_insert_eq, ?E; eauto.
    - rewrite lookup_insert_eq. eauto. }
  split; [intros k Hk; apply isRateLimited_other; assumption |].
  split; [exact Hkey |].
  intros k Hs. destruct (decide (k = email)) as [-> | Hne]; [exact Hkey |].
  rewrite isRateLimited_other by assumption. exact Hs.
Qed.

Lemma isRateLimited_frame_witness :
  (isRateLimited {[ js "x@y.zz" := {| count := 2; firstSubmission := 5 |} ]}
                 10 (js "a@b.co")).2 !! js "x@y.zz"
  = Some {| count := 2; firstSubmission := 5 |}.
Proof.
  destruct (isRateLimited_frame
              {[ js "x@y.zz" := {| count := 2; firstSubmission := 5 |} ]}
              10 (js "a@b.co")) as (H & _ & _).
  rewrite H.
  - apply lookup_singleton_eq.
  - vm_compute. discriminate.
Defined.

(** Calls for a key whose entry is inside its window: as many pass as the
    count leaves room for, and all later ones are limited. *)
Lemma calls_in_window (nows : list Z) :
  forall (t : Tracker) email d,
    t !! email = Some d ->
    Forall (fun n => n - firstSubmission d <= RATE_LIMIT_WINDOW) nows ->
    let room := Z.to_nat (MAX_SUBMISSIONS_PER_EMAIL - count d) in
    (calls t email nows).1
      = replicate (Nat.min room (length nows)) false
        ++ replicate (length nows - room) true.
Proof.
  induction nows as [| n nows IH]; intros t email d Hd Hw room.
  - simpl. rewrite Nat.min_0_r. reflexivity.
  - inversion Hw as [| ? ? Hn Hrest]; subst. simpl.
    destruct (Z.lt_ge_cases (count d) MAX_SUBMISSIONS_PER_EMAIL) as [Hc | Hc].
    + rewrite (isRateLimited_counted t n email d Hd Hn Hc).
      set (d' := {| count := count d + 1;
                    firstSubmission := firstSubmission d |}).
      specialize (IH (<[email := d']> t) email d'
                     (lookup_insert_eq _ _ _) Hrest).
      destruct (calls (<[email := d']> t) email nows) as [results t2].
      subst room. cbv zeta in IH. simpl in IH |- *. rewrite IH.
      replace (Z.to_nat (MAX_SUBMISSIONS_PER_EMAIL - count d))
        with (S (Z.to_nat (MAX_SUBMISSIONS_PER_EMAIL - (count d + 1))))
        by lia.
      reflexivity.
    + rewrite (isRateLimited_blocked t n email d Hd Hn Hc).
      specialize (IH t email d Hd Hrest).
      destruct (calls t email nows) as [results t2].
      subst room. cbv zeta in IH. simpl in IH |- *. rewrite IH.
      replace (Z.to_nat (MAX_SUBMISSIONS_PER_EMAIL - count d))
        with 0%nat by lia.
      simpl. rewrite Nat.sub_0_r. reflexivity.
Qed.

(** X3. Of any number of calls for a key without an entry, at clock
    readings within one window of the first, the first three pass and all
    the others are limited. *)
Theorem isRateLimited_window_quota
    (t : Tracker) (email : jsstring) (n1 : Z) (rest : list Z) :
  t !! email = None ->
  Forall (fun n => n - n1 <= RATE_LIMIT_WINDOW) rest ->
  (calls t email (n1 :: rest)).1
    = replicate (Nat.min 3 (S (length rest))) false
      ++ replicate (length rest - 2) true.
Proof.
  intros H0 Hw. simpl. rewrite (isRateLimited_absent t n1 email H0).
  set (d := {| count := 1; firstSubmission := n1 |}).
  pose proof (calls_in_window rest (<[email := d]> t) email d
                (lookup_insert_eq _ _ _) Hw) as H.
  destruct (calls (<[email := d]> t) email rest) as [results t2].
  simpl in H |- *. rewrite H. reflexivity.
Qed.

Lemma isRateLimited_window_quota_witness :
  (calls ∅ (js "a@b.co") [0; 1; 2; 3; 900000; 4]).1
  = [false; false; false; true; true; true].
Proof.
  apply (isRateLimited_window_quota ∅ (js "a@b.co") 0 [1; 2; 3; 900000; 4]).
  - apply lookup_empty.
  - apply (bool_decide_unpack _). vm_compute. exact I.
Defined.

(** X4. The window is fixed, not sliding: once the window of an entry has
    passed, the whole quota is there again at once.  Three calls inside a
    window and three calls after it has passed all go through; the last
    two of the window and the three after it may lie within one
    millisecond. *)
Theorem isRateLimited_six_across_windows
    (t : Tracker) (email : jsstring) (n1 n2 n3 n4 n5 n6 : Z) :
  t !! email = None ->
  n2 - n1 <= RATE_LIMIT_WINDOW ->
  n3 - n1 <= RATE_LIMIT_WINDOW ->
  RATE_LIMIT_WINDOW < n4 - n1 ->
  n5 - n4 <= RATE_LIMIT_WINDOW ->
  n6 - n4 <= RATE_LIMIT_WINDOW ->
  (calls t email [n1; n2; n3; n4; n5; n6]).1
    = [false; false; false; false; false; false].
Proof.
  intros H0 H2 H3 H4 H5 H6.
  set (e n c := {| count := c; firstSubmission := n |}).
  set (t1 := <[email := e n1 1]> t).
  set (t2 := <[email := e n1 2]> t1).
  set (t3 := <[email := e n1 3]> t2).
  set (t4 := <[email := e n4 1]> t3).
  set (t5 := <[email := e n4 2]> t4).
  assert (E1 : isRateLimited t n1 email = (false, t1))
    by (apply isRateLimited_absent; assumption).
  assert (E2 : isRateLimited t1 n2 email = (false, t2))
    by (apply (isRateLimited_counted t1 n2 email (e n1 1));
        [apply lookup_insert_eq | assumption | reflexivity]).
  assert (E3 : isRateLimited t2 n3 email = (false, t3))
    by (apply (isRateLimited_counted t2 n3 email (e n1 2));
        [apply lookup_insert_eq | assumption | reflexivity]).
  assert (E4 : isRateLimited t3 n4 email = (false, t4))
    by (apply (isRateLimited_expired t3 n4 email (e n1 3));
        [apply lookup_insert_eq | assumption]).
  assert (E5 : isRateLimited t4 n5 email = (false, t5))
    by (apply (isRateLimited_counted t4 n5 email (e n4 1));
        [apply lookup_insert_eq | assumption | reflexivity]).
  assert (E6 : isRateLimited t5 n6 email
               = (false, <[email := e n4 3]> t5))
    by (apply (isRateLimited_counted t5 n6 email (e n4 2));
        [apply lookup_insert_eq | assumption | reflexivity]).
  simpl. rewrite E1, E2, E3, E4, E5, E6. reflexivity.
Qed.

Lemma isRateLimited_six_across_windows_witness :
  (calls ∅ (js "a@b.co") [0; 900000; 900000; 900001; 900001; 900001]).1
  = [false; false; false; false; false; false].
Proof.
  apply isRateLimited_six_across_windows.
  - apply lookup_empty.
  - vm_compute. discriminate.
  - vm_compute. discriminate.
  - vm_compute. reflexivity.
  - vm_compute. discriminate.
  - vm_compute. discriminate.
Defined.

(** ** validateEmail *)

(** X5. [validateEmail] accepts exactly the strings [local@domain.tld]
    whose three parts are non-empty and free of white space and of [@]; a
    part may hold any other code unit, dots included. *)
Theorem validateEmail_accepts_iff (s : jsstring) :
  validateEmail s = true <->
  exists local domain tld,
    s = local ++ AT :: domain ++ DOT :: tld /\
    email_part local /\ email_part domain /\ email_part tld.
Proof. apply validateEmail_shape. Qed.

Lemma validateEmail_accepts_iff_witness :
  validateEmail (js "a..b@c..d") = true.
Proof.
  apply (proj2 (validateEmail_accepts_iff _)).
  exists (js "a..b"), (js "c."), (js "d").
  split; [reflexivity |].
  split; [| split]; apply email_part_check; (discriminate || reflexivity).
Defined.

(** ** The handler *)


Section HandlerMore.

Variable toLowerCase : jsstring -> jsstring.
Variable toISOString : Z -> jsstring.

Local Abbreviation run_handler := (handler toLowerCase toISOString).
Local Abbreviation request_of := (post_request toISOString).
Local Abbreviation checks := (validations toLowerCase).
Local Abbreviation key_of := (identity toLowerCase).




Lemma first_failure_none w t b :
  first_failure (checks w t b) = None ->
  present (body_email b) = true /\ present (body_role b) = true /\
  validateEmail (text (body_email b)) = true /\
  (isRateLimited t (Date_now w) (key_of b)).1 = false /\
  is_role (body_role b) /\
  present (NOTION_TOKEN (process_env w)) = true /\
  present (NOTION_DATABASE_ID (process_env w)) = true.
Proof.
  unfold validations. simpl.
  destruct (present (body_email b)), (present (body_role b)); simpl;
    try discriminate.
  destruct (validateEmail (text (body_email b))); simpl; try discriminate.
  destruct (isRateLimited t (Date_now w) (key_of b)).1; simpl;
    try discriminate.
  destruct (bool_decide_reflect (is_role (body_role b))); simpl;
    try discriminate.
  destruct (present (NOTION_TOKEN (process_env w))),
    (present (NOTION_DATABASE_ID (process_env w))); simpl; try discriminate.
  auto 10.
Qed.

(** X8. A run posts at most once, after one call of the rate limiter,
    and what it posts goes to the page-creation address with a well-formed
    e-mail, one of the four roles, and a token and a database id that are
    not empty. *)
Theorem handler_posts_only_valid w t body request :
  EPost request ∈ run_events (run_handler w t body) ->
  (exists k, run_events (run_handler w t body) = [ERateLimiter k; EPost request]) /\
  url request = "https://api.notion.com/v1/pages"%string /\
  (exists email token db,
      Email_email (payload request) = JString email /\
      Name_title_text_content (payload request) = JString email /\
      validateEmail email = true /\
      is_role (Role_select_name (payload request)) /\
      NOTION_TOKEN (process_env w) = JString token /\ token <> [] /\
      Authorization request = js "Bearer " ++ token /\
      parent_database_id (payload request) = JString db /\ db <> []).
Proof.
  destruct body as [b |];
    [| intros H; apply elem_of_nil in H; contradiction].
  rewrite handler_run. cbv zeta.
  destruct (first_failure (checks w t b)) as [[] |] eqn:Hv; simpl; intros H;
    repeat (apply elem_of_cons in H as [H | H]; [try discriminate |]);
    try (apply elem_of_nil in H; contradiction).
  injection H as ->.
  apply first_failure_none in Hv as (He & Hr & Hval & _ & Hrole & Ht & Hd).
  split; [eauto |]. split; [reflexivity |].
  destruct (body_email b) as [| | email]; try discriminate.
  destruct (NOTION_TOKEN (process_env w)) as [| | token] eqn:Et;
    try discriminate.
  destruct (NOTION_DATABASE_ID (process_env w)) as [| | db] eqn:Ed;
    try discriminate.
  exists email, token, db. unfold post_request, notionPayload. simpl.
  rewrite Et, Ed. simpl.
  repeat split; try assumption.
  - intros ->. discriminate.
  - intros ->. discriminate.
Qed.






End HandlerMore.

Lemma handler_posts_only_valid_witness :
  exists k,
    run_events
      (handler lower_ascii iso_utc (sample_world (Resolved 200)) ∅
         (Some (sample_body "Student / Learner")))
    = [ERateLimiter k;
       EPost (post_request iso_utc (sample_world (Resolved 200))
                (JString (js "Ann@Example.com"))
                (JString (js "Student / Learner")))].
Proof.
  apply (handler_posts_only_valid lower_ascii iso_utc).
  rewrite scenario_identity.
  apply elem_of_cons. right. apply elem_of_cons. left. reflexivity.
Defined.



(** ** The serverless functions and the health check *)

Lemma isConfigured_present env :
  isConfigured env
  = present (NOTION_TOKEN env) && present (NOTION_DATABASE_ID env).
Proof.
  unfold isConfigured, js_and. rewrite <- !truthy_present.
  destruct (truthy (NOTION_TOKEN env)) eqn:E; simpl; [reflexivity | exact E].
Qed.

Section FunctionFacts.

Variable toLowerCase : jsstring -> jsstring.
Variable toISOString : Z -> jsstring.
Variable TypeError_message : jsvalue -> prop -> jsstring.

(** X11. The three functions answer a request of another method than
    their own without doing anything else: [OPTIONS] gets status 200 and
    no body, any other method gets status 405; the waitlist function then
    leaves the map of the rate limiter as it is and makes no call, and the
    connection test makes no call.  The comparison of the method is exact:
    a method in lower case is another method. *)
Theorem functions_other_methods (method : jsstring) :
  let reply :=
    if bool_decide (method = js "OPTIONS") then Ended 200
    else method_not_allowed in
  (method <> js "POST" ->
   forall w t body,
     let x := waitlist_function toLowerCase toISOString method w t body in
     sent_reply x = reply /\ tracker_after x = t /\ effects x = []) /\
  (method <> js "GET" ->
   (forall env now,
      (health_function toISOString method env now).2 = reply) /\
   (forall env axios_get,
      let x := test_notion_function TypeError_message method env axios_get in
      x.1.2 = reply /\ x.2 = [])).
Proof.
  intros reply. subst reply. split.
  - intros Hm w t body. unfold waitlist_function.
    destruct (bool_decide (method = js "OPTIONS")); [auto |].
    rewrite (bool_decide_eq_true_2 _ Hm). auto.
  - intros Hm. split.
    + intros env now. unfold health_function.
      destruct (bool_decide (method = js "OPTIONS")); [reflexivity |].
      rewrite (bool_decide_eq_true_2 _ Hm). reflexivity.
    + intros env axios_get. unfold test_notion_function.
      destruct (bool_decide (method = js "OPTIONS")); [auto |].
      rewrite (bool_decide_eq_true_2 _ Hm). auto.
Qed.



(** ** The connection test *)

(** X14. Without credentials the connection test answers 500 "Notion
    credentials not configured" and makes no call; with them it makes one
    call, to the address of the configured database, with the bearer token
    and a timeout of 5 seconds, and answers 200 or 500. *)
Theorem test_notion_credentials env axios_get :
  let x := test_notion_route TypeError_message env axios_get in
  (isConfigured env = false ->
   x = (Json 500
          (object
             [ ("success", VBool false);
               ("message", VString (js "Notion credentials not configured"))
             ]%string),
        [])) /\
  (isConfigured env = true ->
   exists request token db,
     x.2 = [request] /\
     NOTION_TOKEN env = JString token /\
     NOTION_DATABASE_ID env = JString db /\
     get_url request = js "https://api.notion.com/v1/databases/" ++ db /\
     get_Authorization request = js "Bearer " ++ token /\
     get_timeout request = 5 * 1000 /\
     (reply_status x.1 = 200 \/ reply_status x.1 = 500)).
Proof.
  intros x. subst x. unfold test_notion_route.
  rewrite isConfigured_present, !truthy_present.
  destruct (present (NOTION_TOKEN env)) eqn:Et,
    (present (NOTION_DATABASE_ID env)) eqn:Ed; simpl;
    (split; [try discriminate; reflexivity | try discriminate]).
  intros _.
  destruct (NOTION_TOKEN env) as [| | token] eqn:Ht; try discriminate.
  destruct (NOTION_DATABASE_ID env) as [| | db] eqn:Hd; try discriminate.
  exists (get_request env), token, db.
  unfold get_request. rewrite Ht, Hd. simpl.
  repeat (split; [reflexivity |]).
  unfold test_notion_try, read, get_request. rewrite Ht, Hd.
  destruct (axios_get _) as [data | error]; [| right; reflexivity].
  destruct (nullish data); [right | left]; reflexivity.
Qed.

(** X15. When the call of the connection test fails, the reply is 500
    "Notion connection failed" and carries a text of the failure: the
    [message] of the body that the service sent when that is truthy, and
    the message of the error otherwise.  The text of the remote service
    reaches the caller as it is. *)
Theorem test_notion_failure_forwards env axios_get error :
  isConfigured env = true ->
  axios_get (get_request env) = GetRejected error ->
  let failure text :=
    Json 500
      (object [ ("success", VBool false);
                ("message", VString (js "Notion connection failed"));
                ("error", text) ]%string) in
  let reply := (test_notion_route TypeError_message env axios_get).1 in
  (forall data,
     thrown_response_data error = Some data ->
     value_truthy (get_optional data P_message) = true ->
     reply = failure (get_optional data P_message)) /\
  (forall data,
     thrown_response_data error = Some data ->
     value_truthy (get_optional data P_message) = false ->
     reply = failure (VString (thrown_message error))) /\
  (thrown_response_data error = None ->
   reply = failure (VString (thrown_message error))).
Proof.
  rewrite isConfigured_present. intros Hc Hg failure reply.
  subst failure reply. unfold test_notion_route.
  rewrite !truthy_present.
  apply andb_true_iff in Hc as [-> ->]. simpl.
  unfold test_notion_try. rewrite Hg. unfold test_notion_catch, value_or.
  split; [| split].
  - intros data -> ->. reflexivity.
  - intros data -> ->. reflexivity.
  - intros ->. reflexivity.
Qed.

(** X16. When the call of the connection test resolves with an answer
    that is not [undefined] or [null], the reply is 200 whatever the shape
    of the answer, and the title it reports is truthy: the [content] of
    the [text] of the first element of [title] when that chain leads to a
    truthy value, and "Untitled" otherwise.  An answer that is [undefined]
    or [null] makes the reading throw, and the reply is 500 with the text
    of the runtime's error. *)
Theorem test_notion_success_title env axios_get data :
  isConfigured env = true ->
  axios_get (get_request env) = GetResolved data ->
  let reply := (test_notion_route TypeError_message env axios_get).1 in
  let content :=
    get_optional
      (get_optional (get_optional (own_property data P_title) P_0) P_text)
      P_content in
  (nullish data = false ->
   exists title,
     reply
     = Json 200
         (object
            [ ("success", VBool true);
              ("message", VString (js "Notion connection successful"));
              ("database",
                object [ ("title", title);
                         ("id", own_property data P_id) ]) ]%string) /\
     value_truthy title = true /\
     (value_truthy content = true -> title = content) /\
     (value_truthy content = false -> title = VString (js "Untitled"))) /\
  (nullish data = true ->
   reply
   = Json 500
       (object
          [ ("success", VBool false);
            ("message", VString (js "Notion connection failed"));
            ("error", VString (TypeError_message data P_title)) ]%string)).
Proof.
  rewrite isConfigured_present. intros Hc Hg reply content.
  subst reply. unfold test_notion_route. rewrite !truthy_present.
  apply andb_true_iff in Hc as [-> ->]. simpl.
  unfold test_notion_try, read. rewrite Hg.
  split.
  - intros ->. fold content.
    exists (value_or content (VString (js "Untitled"))).
    split; [reflexivity |]. unfold value_or.
    destruct (value_truthy content) eqn:E.
    + split; [exact E |]. split; [reflexivity | discriminate].
    + split; [reflexivity |]. split; [discriminate | reflexivity].
  - intros ->. reflexivity.
Qed.

End FunctionFacts.

(** ** The submission handler on a body of any type *)

Section AnyBodyFacts.

Variable toLowerCase : jsstring -> jsstring.
Variable toISOString : Z -> jsstring.
Variable Number_toString : Z -> jsstring.

Local Abbreviation run_any :=
  (handler_any toLowerCase toISOString Number_toString).
Local Abbreviation checks := (validations toLowerCase).
Local Abbreviation key_of := (identity toLowerCase).

Lemma as_jsval_of_jsval v : as_jsval (of_jsval v) = v.
Proof. destruct v; reflexivity. Qed.

(** On a body whose two fields are strings or hold nothing, the handler
    on values of any type runs as [handler] does on the two fields. *)
Lemma handler_any_typed w t body :
  nullish body = false ->
  string_or_absent (own_property body P_email) = true ->
  string_or_absent (own_property body P_role) = true ->
  run_any w t body
  = handler toLowerCase toISOString w t (Some (fields_of body)).
Proof.
  intros Hb He Hr.
  unfold handler_any, handler, try_block_any, try_block, fields_of.
  rewrite Hb.
  destruct (own_property body P_email) as [| | | | [| c e] | |];
    try discriminate He; try reflexivity.
  destruct (own_property body P_role) as [| | | | [| c' r] | |];
    try discriminate Hr; reflexivity.
Qed.

(** The same for the bodies of [handler], and for a request without a
    body. *)
Lemma handler_any_agrees w t body :
  run_any w t (body_value body) = handler toLowerCase toISOString w t body.
Proof.
  destruct body as [[email role] |]; [| reflexivity].
  rewrite handler_any_typed;
    [| reflexivity | destruct email; reflexivity | destruct role; reflexivity].
  unfold fields_of, body_value. simpl.
  rewrite !as_jsval_of_jsval. reflexivity.
Qed.


(** C9 (amended). A request whose e-mail is a well-formed string, whose
    role is truthy and whose identity is not at the limit takes a slot of
    the rate limiter: after the run the entry of the lower-cased e-mail is
    new or reset (count 1, window starting now) or has its count
    incremented, whatever the role, the environment and the answer of the
    remote service are. *)
Theorem handler_any_consumes_slot w t body (email : jsstring) :
  nullish body = false ->
  own_property body P_email = VString email ->
  value_truthy (own_property body P_role) = true ->
  validateEmail email = true ->
  (forall d, t !! toLowerCase email = Some d ->
     Date_now w - firstSubmission d <= RATE_LIMIT_WINDOW ->
     count d < MAX_SUBMISSIONS_PER_EMAIL) ->
  let run := run_any w t body in
  let key := toLowerCase email in
  run_tracker run = (isRateLimited t (Date_now w) key).2 /\
  ERateLimiter key ∈ run_events run /\
  run_tracker run !! key =
    Some match t !! key with
         | None => {| count := 1; firstSubmission := Date_now w |}
         | Some d =>
             if RATE_LIMIT_WINDOW <? Date_now w - firstSubmission d
             then {| count := 1; firstSubmission := Date_now w |}
             else {| count := count d + 1;
                     firstSubmission := firstSubmission d |}
         end.
Proof.
  intros Hb He Hr Hv Hfree run key. subst run key.
  assert (Hlim : isRateLimited t (Date_now w) (toLowerCase email) =
    (false,
     <[toLowerCase email :=
         match t !! toLowerCase email with
         | None => {| count := 1; firstSubmission := Date_now w |}
         | Some d =>
             if RATE_LIMIT_WINDOW <? Date_now w - firstSubmission d
             then {| count := 1; firstSubmission := Date_now w |}
             else {| count := count d + 1;
                     firstSubmission := firstSubmission d |}
         end]> t)).
  { destruct (t !! toLowerCase email) as [d |] eqn:E.
    - destruct (Z.ltb_spec RATE_LIMIT_WINDOW (Date_now w - firstSubmission d)).
      + apply (isRateLimited_expired _ _ _ d); assumption.
      + apply (isRateLimited_counted _ _ _ d); auto.
    - apply isRateLimited_absent. assumption. }
  assert (Ht : value_truthy (VString email) = true).
  { destruct email; [discriminate Hv | reflexivity]. }
  unfold handler_any, try_block_any.
  rewrite Hb, He, Ht, Hr. simpl. rewrite Hv, Hlim. simpl.
  assert (Hin : forall (e : Event) l, e ∈ e :: l) by (intros; left).
  repeat match goal with
         | |- context [if ?c then _ else _] => destruct c; simpl
         | |- context [match axios_post ?w ?r with _ => _ end] =>
             destruct (axios_post w r); simpl
         end;
    (split; [reflexivity | split; [apply Hin | apply lookup_insert_eq]]).
Qed.


(** X19. What the handler posts comes from a body whose e-mail and role
    are strings: a value of another type is never forwarded to the remote
    service, and a role that is not a string is never accepted. *)
Theorem handler_any_posts_strings w t body request :
  EPost request ∈ run_events (run_any w t body) ->
  exists email role,
    own_property body P_email = VString email /\
    own_property body P_role = VString role /\
    Email_email (payload request) = JString email /\
    Name_title_text_content (payload request) = JString email /\
    Role_select_name (payload request) = JString role /\
    includes validRoles (JString role) = true.
Proof.
  unfold handler_any, try_block_any.
  destruct (nullish body);
    [intros H; apply elem_of_nil in H; contradiction |].
  destruct (negb (value_truthy (own_property body P_email))
            || negb (value_truthy (own_property body P_role)));
    [intros H; apply elem_of_nil in H; contradiction |].
  destruct (value_ToString Number_toString (own_property body P_email))
    as [converted |];
    [| intros H; apply elem_of_nil in H; contradiction].
  destruct (negb (validateEmail converted));
    [intros H; apply elem_of_nil in H; contradiction |].
  destruct (own_property body P_email) as [| | | | email | |];
    try (intros H; apply elem_of_nil in H; contradiction).
  destruct (isRateLimited t (Date_now w) (toLowerCase email))
    as [limited t1].
  assert (Hno : forall k, EPost request ∈ [ERateLimiter k] -> False).
  { intros k H. apply elem_of_cons in H as [H | H]; [discriminate |].
    apply elem_of_nil in H. exact H. }
  destruct limited; [intros H; exfalso; exact (Hno _ H) |].
  destruct (own_property body P_role) as [| | | | role | |]; simpl;
    try (intros H; exfalso; exact (Hno _ H)).
  destruct (includes validRoles (JString role)) eqn:Hi; simpl;
    [| intros H; exfalso; exact (Hno _ H)].
  destruct (negb (truthy (NOTION_TOKEN (process_env w)))
            || negb (truthy (NOTION_DATABASE_ID (process_env w))));
    [intros H; exfalso; exact (Hno _ H) |].
  intros H. exists email, role.
  assert (Hreq : request
                 = post_request toISOString w (JString email) (JString role)).
  { destruct (axios_post w _); simpl in H;
      apply elem_of_cons in H as [H | H]; try discriminate;
      apply elem_of_cons in H as [H | H];
      try (apply elem_of_nil in H; contradiction);
      injection H as ->; reflexivity. }
  rewrite Hreq. simpl. auto 10.
Qed.


End AnyBodyFacts.

(** ** The functions on examples *)

Lemma functions_other_methods_witness :
  let x := waitlist_function lower_ascii iso_utc (js "post")
             (sample_world (Resolved 200)) ∅
             (Some (sample_body "Student / Learner")) in
  sent_reply x = method_not_allowed /\ tracker_after x = ∅ /\ effects x = [].
Proof.
  apply (proj1 (functions_other_methods lower_ascii iso_utc
                  v8_TypeError_message (js "post"))).
  vm_compute. discriminate.
Defined.



Lemma test_notion_credentials_witness :
  exists request,
    (test_notion_route v8_TypeError_message sample_env
       (fun _ => GetResolved (sample_database (sample_title "Waitlist")))).2
      = [request] /\
    get_url request = js "https://api.notion.com/v1/databases/database-id" /\
    get_timeout request = 5000.
Proof.
  destruct (test_notion_credentials v8_TypeError_message sample_env
              (fun _ => GetResolved (sample_database (sample_title "Waitlist"))))
    as (_ & H).
  destruct (H eq_refl) as (request & token & db & H1 & _ & Hd & H2 & _ & H3 & _).
  exists request. split; [exact H1 |]. split; [| exact H3].
  rewrite H2. injection Hd as <-. reflexivity.
Defined.

Lemma test_notion_failure_forwards_witness :
  (test_notion_route v8_TypeError_message sample_env
     (fun _ => GetRejected
                 {| thrown_response_data := Some sample_error_body;
                    thrown_message :=
                      js "Request failed with status code 401" |})).1
  = Json 500
      (object [ ("success", VBool false);
                ("message", VString (js "Notion connection failed"));
                ("error", VString (js "API token is invalid.")) ]%string).
Proof.
  destruct (test_notion_failure_forwards v8_TypeError_message sample_env
              (fun _ => GetRejected
                          {| thrown_response_data := Some sample_error_body;
                             thrown_message :=
                               js "Request failed with status code 401" |})
              {| thrown_response_data := Some sample_error_body;
                 thrown_message := js "Request failed with status code 401" |}
              eq_refl eq_refl) as (H & _ & _).
  apply (H sample_error_body eq_refl eq_refl).
Defined.

Lemma test_notion_success_title_witness :
  (test_notion_route v8_TypeError_message sample_env
     (fun _ => GetResolved (sample_database (VArray [])))).1
  = Json 200
      (object
         [ ("success", VBool true);
           ("message", VString (js "Notion connection successful"));
           ("database",
             object [ ("title", VString (js "Untitled"));
                      ("id", VString (js "database-id")) ]) ]%string).
Proof.
  destruct (test_notion_success_title v8_TypeError_message sample_env
              (fun _ => GetResolved (sample_database (VArray [])))
              (sample_database (VArray [])) eq_refl eq_refl) as (H & _).
  destruct (H eq_refl) as (title & -> & _ & _ & Hu).
  rewrite (Hu eq_refl). reflexivity.
Defined.



Lemma handler_any_consumes_slot_witness :
  run_tracker
    (handler_any lower_ascii iso_utc no_numbers
       (sample_world (Resolved 200)) ∅
       (object [ ("email", VString (js "Ann@Example.com"));
                 ("role", VArray [VString (js "Student / Learner")])
               ]%string))
    !! js "ann@example.com"
  = Some {| count := 1; firstSubmission := 1700000000000 |}.
Proof.
  destruct (handler_any_consumes_slot lower_ascii iso_utc no_numbers
              (sample_world (Resolved 200)) ∅
              (object [ ("email", VString (js "Ann@Example.com"));
                        ("role", VArray [VString (js "Student / Learner")])
                      ]%string)
              (js "Ann@Example.com"))
    as (_ & _ & H).
  - reflexivity.
  - reflexivity.
  - reflexivity.
  - vm_compute. reflexivity.
  - intros d Hd. rewrite lookup_empty in Hd. discriminate Hd.
  - rewrite lookup_empty in H. exact H.
Defined.

Lemma handler_any_consumes_slot_counterexample :
  let email := own_property array_email_body P_email in
  let role := own_property array_email_body P_role in
  let run := handler_any lower_ascii iso_utc no_numbers
               (sample_world (Resolved 200)) ∅ array_email_body in
  (* e-mail and role are not empty, the e-mail is well formed for
     [validateEmail], and no identity is at the limit in the empty map *)
  value_truthy email = true /\ value_truthy role = true /\
  value_ToString no_numbers email = Some (js "a@b.co") /\
  validateEmail (js "a@b.co") = true /\
  (* and no slot is taken *)
  run_tracker run = ∅ /\
  run_tracker run !! lower_ascii (js "a@b.co") = None /\
  run_events run = [].
Proof.
  assert (E : handler_any lower_ascii iso_utc no_numbers
                (sample_world (Resolved 200)) ∅ array_email_body
              = {| run_response :=
                     json 500 false
                       "Network error. Please check your connection and try again.";
                   run_tracker := ∅;
                   run_events := [] |}) by reflexivity.
  cbv zeta. rewrite E. simpl.
  repeat split; try reflexivity.
Qed.


Lemma handler_any_posts_strings_witness :
  exists email role,
    own_property
      (body_value (Some (sample_body "Student / Learner"))) P_email
      = VString email /\
    own_property
      (body_value (Some (sample_body "Student / Learner"))) P_role
      = VString role.
Proof.
  destruct (handler_any_posts_strings lower_ascii iso_utc no_numbers
              (sample_world (Resolved 200)) ∅
              (body_value (Some (sample_body "Student / Learner")))
              (post_request iso_utc (sample_world (Resolved 200))
                 (JString (js "Ann@Example.com"))
                 (JString (js "Student / Learner"))))
    as (email & role & H1 & H2 & _).
  - apply list_elem_of_In. vm_compute. right. left. reflexivity.
  - exists email, role. split; assumption.
Defined.


(** Examples of the connection test and of the conversion to a string. *)

Example test_notion_title_of_answer :
  (test_notion_route v8_TypeError_message sample_env
     (fun _ => GetResolved (sample_database (sample_title "Waitlist")))).1
  = Json 200
      (object
         [ ("success", VBool true);
           ("message", VString (js "Notion connection successful"));
           ("database",
             object [ ("title", VString (js "Waitlist"));
                      ("id", VString (js "database-id")) ]) ]%string).
Proof. vm_compute. reflexivity. Qed.

Example test_notion_null_answer :
  (test_notion_route v8_TypeError_message sample_env
     (fun _ => GetResolved VNull)).1
  = Json 500
      (object
         [ ("success", VBool false);
           ("message", VString (js "Notion connection failed"));
           ("error",
             VString (js "Cannot read properties of null (reading 'title')"))
         ]%string).
Proof. vm_compute. reflexivity. Qed.

Example value_ToString_array :
  value_ToString no_numbers
    (VArray [VString (js "a"); VNull; VArray [VString (js "b"); VBool true]])
  = Some (js "a,,b,true").
Proof. vm_compute. reflexivity. Qed.

Example number_falsy_zero_nan :
  number_falsy 0 = true /\
  number_falsy (2 ^ 63) = true /\
  number_falsy 9221120237041090560 = true /\
  number_falsy 4645762082795421696 = false /\
  number_falsy 9218868437227405312 = false.
Proof. vm_compute. auto. Qed.
